(** * Custom Claims Provider: the claim-staging cache and its handlers

    A shallow embedding of [Custom-Claims-Back-end/main.py]: the storage
    helpers [store_data], [get_data], [delete_data] over the two backends
    (a Redis client, or the in-process dictionary [frontend_data_store]),
    and the two handlers [store_frontend_data] and [custom_claims_provider].

    Conventions.
    - Python values are the JSON-shaped tree [pyval]; a dict is an
      association list in insertion order.
    - Clock readings ([time.time()], a float of seconds) are rationals and
      are passed to each function in the order the code reads them.
    - Module-level state ([redis_client], [frontend_data_store]) is the
      record [World], threaded through a state-and-exception monad [M];
      a raised exception keeps the mutations done before it.
    - [print] calls have no effect on the state and are left out. *)

From Stdlib Require Import QArith Lqa.
From stdpp Require Import base option list strings pretty gmap.

Set Warnings "-register-all".
Local Open Scope string_scope.

(** ** Python values *)

Inductive pyval : Type :=
| VNone
| VBool (b : bool)
| VNum (q : Q)
| VStr (s : string)
| VList (l : list pyval)
| VDict (d : list (string * pyval)).

Abbreviation pydict := (list (string * pyval)).

(** [bool(v)] *)
Definition truthy (v : pyval) : bool :=
  match v with
  | VNone => false
  | VBool b => b
  | VNum q => negb (Qeq_bool q 0)
  | VStr s => negb (String.eqb s "")
  | VList l => negb (Nat.eqb (length l) 0)
  | VDict d => negb (Nat.eqb (length d) 0)
  end.

(** [a or b] *)
Definition py_or (a b : pyval) : pyval := if truthy a then a else b.

(** [None] when the optional string is missing *)
Definition of_optional_str (o : option string) : pyval :=
  match o with Some s => VStr s | None => VNone end.

Module Dict.

Fixpoint lookup (k : string) (d : pydict) : option pyval :=
  match d with
  | [] => None
  | (k', v) :: d' => if String.eqb k k' then Some v else lookup k d'
  end.

(** [d.get(k, dflt)] *)
Definition get (d : pydict) (k : string) (dflt : pyval) : pyval :=
  default dflt (lookup k d).

(** [d[k] = v]: an existing key keeps its position *)
Fixpoint setitem (k : string) (v : pyval) (d : pydict) : pydict :=
  match d with
  | [] => [(k, v)]
  | (k', v') :: d' =>
      if String.eqb k k' then (k, v) :: d' else (k', v') :: setitem k v d'
  end.

(** [d.update(other)] *)
Definition update (d other : pydict) : pydict :=
  fold_left (fun acc kv => setitem kv.1 kv.2 acc) other d.

End Dict.

(** ** Exceptions and results *)

Inductive exn : Type :=
| TypeError (msg : string)
| KeyError (msg : string)
| AttributeError (msg : string)
| JSONDecodeError (msg : string)
| RedisConnectionError (msg : string)
| RedisTimeoutError (msg : string)
| RedisDataError (msg : string)
| RedisResponseError (msg : string)
| HTTPException (status_code : Z) (detail : string).

(** [str(e)]; an [HTTPException] prints as its status code and detail *)
Definition str_exn (e : exn) : string :=
  match e with
  | TypeError m | KeyError m | AttributeError m | JSONDecodeError m
  | RedisConnectionError m | RedisTimeoutError m
  | RedisDataError m | RedisResponseError m => m
  | HTTPException c d => pretty c ++ ": " ++ d
  end.

Inductive result (A : Type) : Type :=
| Return (a : A)
| Raise (e : exn).
Arguments Return {A} a.
Arguments Raise {A} e.

(** ** The Redis server behind [redis_client]

    The server is outside the repository; this is the reference behaviour
    of the three commands the code issues.  A stored string is either the
    JSON text of a value ([JsonText v], what [json.dumps v] writes and
    [json.loads] reads back) or some text that is not JSON ([RawText]).
    [faults] is the schedule of transport failures: each command consumes
    its head, and fails with it when it is [Some e]; an empty schedule is
    a healthy connection.  A scheduled failure is one raised before the
    command reaches the server; a failure that shows only after the
    server ran the command (a reply that times out) is not represented,
    so the statements about a failed SETEX or DEL leave open what Redis
    then holds under the written key.  [repr_number] is the client's
    encoding of a numeric key. *)

Module Redis.

Inductive text : Type :=
| JsonText (v : pyval)
| RawText (s : string).

Record entry : Type := Entry { value : text; expire_at : Q }.

Record server : Type := Server {
  db : gmap string entry;
  faults : list (option exn);
  repr_number : Q -> string
}.

Definition with_db (f : gmap string entry -> gmap string entry) (r : server) : server :=
  Server (f (db r)) (faults r) (repr_number r).

Definition with_faults (fs : list (option exn)) (r : server) : server :=
  Server (db r) fs (repr_number r).

(** the client turns a key into bytes: strings as they are, numbers by
    their repr; anything else is refused *)
Definition encode (r : server) (k : pyval) : result string :=
  match k with
  | VStr s => Return s
  | VNum q => Return (repr_number r q)
  | _ => Raise (RedisDataError "Invalid input of type")
  end.

Definition command {A} (op : server -> result A * server) (r : server)
  : result A * server :=
  match faults r with
  | Some e :: fs => (Raise e, with_faults fs r)
  | None :: fs => op (with_faults fs r)
  | [] => op r
  end.

(** an entry is readable strictly before its expiry instant (at the
    instant itself the model already hides it) *)
Definition live (now : Q) (e : entry) : bool :=
  negb (Qle_bool (expire_at e) now).

(** [SETEX key seconds value] *)
Definition setex (now : Q) (key : pyval) (seconds : Z) (v : text)
  : server -> result unit * server :=
  command (fun r =>
    match encode r key with
    | Raise e => (Raise e, r)
    | Return k =>
        if (seconds <=? 0)%Z
        then (Raise (RedisResponseError "invalid expire time in 'setex' command"), r)
        else (Return tt, with_db (insert k (Entry v (now + inject_Z seconds))) r)
    end).

(** [GET key] *)
Definition get (now : Q) (key : pyval) : server -> result (option text) * server :=
  command (fun r =>
    match encode r key with
    | Raise e => (Raise e, r)
    | Return k =>
        match db r !! k with
        | Some e => (Return (if live now e then Some (value e) else None), r)
        | None => (Return None, r)
        end
    end).

(** [DEL key] *)
Definition delete (now : Q) (key : pyval) : server -> result Z * server :=
  command (fun r =>
    match encode r key with
    | Raise e => (Raise e, r)
    | Return k =>
        match db r !! k with
        | Some e => (Return (if live now e then 1%Z else 0%Z), with_db (base.delete k) r)
        | None => (Return 0%Z, r)
        end
    end).

End Redis.

(** [json.dumps v] of a JSON-shaped value *)
Definition json_dumps (v : pyval) : Redis.text := Redis.JsonText v.

(** [json.loads s] *)
Definition json_loads (s : Redis.text) : result pyval :=
  match s with
  | Redis.JsonText v => Return v
  | Redis.RawText _ => Raise (JSONDecodeError "Expecting value")
  end.

(** truth value of a string read from Redis *)
Definition text_truthy (s : Redis.text) : bool :=
  match s with
  | Redis.JsonText _ => true
  | Redis.RawText s => negb (String.eqb s "")
  end.

(** ** Module state and the monad *)

Record World : Type := mkWorld {
  redis_client : option Redis.server;
  frontend_data_store : gmap string pydict
}.

Definition M (A : Type) : Type := World -> result A * World.

Definition ret {A} (a : A) : M A := fun w => (Return a, w).

Definition bind {A B} (m : M A) (k : A -> M B) : M B :=
  fun w => match m w with
           | (Return a, w') => k a w'
           | (Raise e, w') => (Raise e, w')
           end.

Definition raise {A} (e : exn) : M A := fun w => (Raise e, w).

(** [try: body  except Exception as e: handler e] *)
Definition try_except {A} (body : M A) (handler : exn -> M A) : M A :=
  fun w => match body w with
           | (Return a, w') => (Return a, w')
           | (Raise e, w') => handler e w'
           end.

Definition lift {A} (r : result A) : M A := fun w => (r, w).

Notation "x <- m ;; k" := (bind m (fun x => k))
  (at level 100, m at next level, right associativity).
Notation "m ;;; k" := (bind m (fun _ => k))
  (at level 100, right associativity).

(** a command sent through [redis_client] *)
Definition on_redis {A} (r : Redis.server)
  (cmd : Redis.server -> result A * Redis.server) : M A :=
  fun w => let (a, r') := cmd r in
           (a, mkWorld (Some r') (frontend_data_store w)).

(** a key of the wrong kind cannot be hashed *)
Definition hash_key (key : pyval) : result (option string) :=
  match key with
  | VStr s => Return (Some s)
  | VList _ => Raise (TypeError "unhashable type: 'list'")
  | VDict _ => Raise (TypeError "unhashable type: 'dict'")
  | _ => Return None
  end.

Definition read_redis_client : M (option Redis.server) :=
  fun w => (Return (redis_client w), w).

(** [frontend_data_store[key] = data] *)
Definition store_setitem (key : string) (data : pydict) : M unit :=
  fun w => (Return tt, mkWorld (redis_client w) (<[key := data]> (frontend_data_store w))).

(** [frontend_data_store.get(key)] *)
Definition store_get (key : pyval) : M (option pydict) :=
  fun w => match hash_key key with
           | Raise e => (Raise e, w)
           | Return None => (Return None, w)
           | Return (Some k) => (Return (frontend_data_store w !! k), w)
           end.

(** [del frontend_data_store[key]] *)
Definition store_delitem (key : pyval) : M unit :=
  fun w => match hash_key key with
           | Raise e => (Raise e, w)
           | Return None => (Raise (KeyError "key"), w)
           | Return (Some k) =>
               match frontend_data_store w !! k with
               | Some _ => (Return tt, mkWorld (redis_client w) (delete k (frontend_data_store w)))
               | None => (Raise (KeyError k), w)
               end
           end.

(** [frontend_data_store.pop(key, None)] *)
Definition store_pop (key : pyval) : M unit :=
  fun w => match hash_key key with
           | Raise e => (Raise e, w)
           | Return None => (Return tt, w)
           | Return (Some k) =>
               (Return tt, mkWorld (redis_client w) (delete k (frontend_data_store w)))
           end.

(** [v.get(k, dflt)] on a value that need not be a dict *)
Definition py_get (v : pyval) (k : string) (dflt : pyval) : result pyval :=
  match v with
  | VDict d => Return (Dict.get d k dflt)
  | _ => Raise (AttributeError "object has no attribute 'get'")
  end.

(** [a - v] for a float [a] *)
Definition py_sub (a : Q) (v : pyval) : result Q :=
  match v with
  | VNum q => Return (a - q)%Q
  | VBool b => Return (a - (if b then 1 else 0))%Q
  | _ => Raise (TypeError "unsupported operand type(s) for -")
  end.

(** [a > b] *)
Definition Qgt_bool (a b : Q) : bool := negb (Qle_bool a b).

(** ** Helper functions for storage (main.py, lines 62-103) *)

(** [now] is the instant of the call: what [time.time()] returns in the
    fallback branch, and the server's clock in the Redis branch.  The
    fallback branch writes ['_timestamp'] into the caller's dict; the only
    caller drops its reference afterwards, so the stored dict is the one
    carrying the stamp. *)
Definition store_data (now : Q) (key : string) (data : pydict) (expiration : Z) : M bool :=
  try_except
    (redis <- read_redis_client ;;
     match redis with
     | Some r =>
         on_redis r (Redis.setex now (VStr key) expiration (json_dumps (VDict data))) ;;;
         ret true
     | None =>
         let data := Dict.setitem "_timestamp" (VNum now) data in
         store_setitem key data ;;;
         ret true
     end)
    (fun e => ret false).

Definition get_data (now : Q) (key : pyval) : M pyval :=
  try_except
    (redis <- read_redis_client ;;
     match redis with
     | Some r =>
         data <- on_redis r (Redis.get now key) ;;
         match data with
         | Some s => if text_truthy s then lift (json_loads s) else ret VNone
         | None => ret VNone
         end
     | None =>
         data <- store_get key ;;
         match data with
         | Some d =>
             if truthy (VDict d) then
               age <- lift (py_sub now (Dict.get d "_timestamp" (VNum 0))) ;;
               if Qgt_bool age 300 then
                 store_delitem key ;;;
                 ret VNone
               else ret (VDict d)
             else ret (VDict d)
         | None => ret VNone
         end
     end)
    (fun e => ret VNone).

Definition delete_data (now : Q) (key : pyval) : M bool :=
  try_except
    (redis <- read_redis_client ;;
     match redis with
     | Some r => on_redis r (Redis.delete now key) ;;; ret true
     | None => store_pop key ;;; ret true
     end)
    (fun e => ret false).

(** ** Data models (main.py, lines 143-166) *)

Record FrontendData : Type := mkFrontendData {
  user_id : string;
  business_unit : string;
  device_info : string;
  custom_data : option string;
  timestamp : Q
}.

Record AuthenticationContext : Type := mkAuthenticationContext {
  user : pydict;
  correlationId : string;
  client : pydict;
  protocol : string;
  clientServicePrincipal : pydict;
  resourceServicePrincipal : pydict
}.

Record TokenIssuanceEventData : Type := mkTokenIssuanceEventData {
  authenticationContext : AuthenticationContext
}.

Record TokenIssuanceEvent : Type := mkTokenIssuanceEvent {
  type : string;
  data : TokenIssuanceEventData
}.

Record HTTPAuthorizationCredentials : Type := mkCredentials {
  scheme : string;
  credentials : string
}.

Definition storage_type (redis : option Redis.server) : string :=
  match redis with Some _ => "redis" | None => "memory" end.

(** the dict literal of lines 176-181, with [now] the value of
    [time.time()] there *)
Definition data_to_store (frontend_data : FrontendData) (now : Q) : pydict :=
  [ ("business_unit", VStr (business_unit frontend_data));
    ("device_info", VStr (device_info frontend_data));
    ("custom_data", of_optional_str (custom_data frontend_data));
    ("timestamp", VNum now) ].

(** ** POST /api/store-frontend-data (main.py, lines 169-199)

    [t_request] is the reading of [time.time()] at line 180, [t_store] the
    instant of the [store_data] call. *)
Definition store_frontend_data (t_request t_store : Q) (frontend_data : FrontendData)
  : M pyval :=
  try_except
    (let data_to_store := data_to_store frontend_data t_request in
     success <- store_data t_store (user_id frontend_data) data_to_store 300 ;;
     if success : bool then
       redis <- read_redis_client ;;
       ret (VDict [ ("success", VBool true);
                    ("message", VStr "Data stored successfully");
                    ("user_id", VStr (user_id frontend_data));
                    ("expires_in", VNum 300);
                    ("storage_type", VStr (storage_type redis)) ])
     else raise (HTTPException 500 "Failed to store data"))
    (fun e => raise (HTTPException 500 ("Error storing data: " ++ str_exn e))).

(** ** POST /api/custom-claims (main.py, lines 202-271) *)

(** the instants at which one call reads a clock, in program order: inside
    [get_data], [datetime.utcnow().isoformat()], the two [time.time()] of
    line 240 (the second is the default argument of [.get]), and inside
    [delete_data] *)
Record ClaimsClock : Type := mkClaimsClock {
  at_get : Q;
  utcnow_iso : string;
  at_age : Q;
  at_age_default : Q;
  at_delete : Q
}.

(** line 216 *)
Definition user_id_of (user_context : pydict) : pyval :=
  py_or (Dict.get user_context "userPrincipalName" VNone)
        (Dict.get user_context "id" VNone).

Definition odata_type : string :=
  "microsoft.graph.tokenIssuanceStart.provideClaimsForToken".

Definition custom_claims_provider (clock : ClaimsClock) (event : TokenIssuanceEvent)
  (creds : HTTPAuthorizationCredentials) : M pyval :=
  try_except
    (let user_context := user (authenticationContext (data event)) in
     let user_id := user_id_of user_context in
     stored_data <- get_data (at_get clock) user_id ;;
     redis <- read_redis_client ;;
     let custom_claims :=
       [ ("apiVersion", VStr "1.0.0");
         ("correlationId", VStr (correlationId (authenticationContext (data event))));
         ("timestamp", VStr (utcnow_iso clock));
         ("source", VStr "custom-claims-provider");
         ("storage_type", VStr (storage_type redis)) ] in
     custom_claims <-
       (if truthy stored_data then
          businessUnit <- lift (py_get stored_data "business_unit" (VStr "Unknown")) ;;
          deviceInfo <- lift (py_get stored_data "device_info" (VStr "Unknown")) ;;
          customData <- lift (py_get stored_data "custom_data" (VStr "")) ;;
          stored_at <- lift (py_get stored_data "timestamp" (VNum (at_age_default clock))) ;;
          dataAge <- lift (py_sub (at_age clock) stored_at) ;;
          let custom_claims :=
            Dict.update custom_claims
              [ ("businessUnit", businessUnit);
                ("deviceInfo", deviceInfo);
                ("customData", customData);
                ("dataSource", VStr "frontend");
                ("dataAge", VNum dataAge) ] in
          delete_data (at_delete clock) user_id ;;;
          ret custom_claims
        else
          ret (Dict.update custom_claims
                 [ ("businessUnit", VStr "Default");
                   ("deviceInfo", VStr "Server-Generated");
                   ("customData", VStr "No frontend data available");
                   ("dataSource", VStr "default") ])) ;;
     ret (VDict [ ("data", VDict [ ("actions", VList [ VDict
            [ ("@odata.type", VStr odata_type);
              ("claims", VDict custom_claims) ] ]) ]) ]))
    (fun e => raise (HTTPException 500 ("Error processing claims: " ++ str_exn e))).

(** ** Vocabulary of the statements *)

(** the protocol envelope of lines 257-264 around a claims mapping *)
Definition provide_claims (claims : pydict) : pyval :=
  VDict [ ("data", VDict [ ("actions", VList [ VDict
    [ ("@odata.type", VStr "microsoft.graph.tokenIssuanceStart.provideClaimsForToken");
      ("claims", VDict claims) ] ]) ]) ].

(** no transport failure is scheduled on the active backend *)
Definition healthy (w : World) : Prop :=
  match redis_client w with
  | Some r => Redis.faults r = []
  | None => True
  end.

(** the active backend holds nothing under [k] *)
Definition nothing_staged (w : World) (k : string) : Prop :=
  match redis_client w with
  | Some r => Redis.db r !! k = None
  | None => frontend_data_store w !! k = None
  end.

Definition event_user (event : TokenIssuanceEvent) : pydict :=
  user (authenticationContext (data event)).

Definition event_correlationId (event : TokenIssuanceEvent) : string :=
  correlationId (authenticationContext (data event)).

(** the active backend holds [record] under [k], written there by
    [store_data] at instant [t_store] with the 300 s expiration *)
Definition staged_in (w : World) (k : string) (record : pydict) (t_store : Q) : Prop :=
  match redis_client w with
  | Some r =>
      Redis.db r !! k
      = Some (Redis.Entry (json_dumps (VDict record)) (t_store + inject_Z 300))
  | None =>
      frontend_data_store w !! k
      = Some (Dict.setitem "_timestamp" (VNum t_store) record)
  end.

(** the claims mapping of the staged-data path, entry by entry *)
Definition frontend_claims (backend correlation iso : string)
  (businessUnit deviceInfo customData : pyval) (dataAge : Q) : pydict :=
  [ ("apiVersion", VStr "1.0.0");
    ("correlationId", VStr correlation);
    ("timestamp", VStr iso);
    ("source", VStr "custom-claims-provider");
    ("storage_type", VStr backend);
    ("businessUnit", businessUnit);
    ("deviceInfo", deviceInfo);
    ("customData", customData);
    ("dataSource", VStr "frontend");
    ("dataAge", VNum dataAge) ].

(** the claims mapping of the default path, entry by entry *)
Definition default_claims (backend correlation iso : string) : pydict :=
  [ ("apiVersion", VStr "1.0.0");
    ("correlationId", VStr correlation);
    ("timestamp", VStr iso);
    ("source", VStr "custom-claims-provider");
    ("storage_type", VStr backend);
    ("businessUnit", VStr "Default");
    ("deviceInfo", VStr "Server-Generated");
    ("customData", VStr "No frontend data available");
    ("dataSource", VStr "default") ].

(** the body of a successful store response *)
Definition stored_response (frontend_data : FrontendData) (backend : string) : pyval :=
  VDict [ ("success", VBool true);
          ("message", VStr "Data stored successfully");
          ("user_id", VStr (user_id frontend_data));
          ("expires_in", VNum 300);
          ("storage_type", VStr backend) ].

(** the state after the active backend has taken [record] under [k] *)
Definition put_record (w : World) (k : string) (record : pydict) (t_store : Q) : World :=
  match redis_client w with
  | Some r =>
      mkWorld (Some (Redis.with_db
                       (insert k (Redis.Entry (json_dumps (VDict record))
                                              (t_store + inject_Z 300))) r))
              (frontend_data_store w)
  | None =>
      mkWorld None (<[k := Dict.setitem "_timestamp" (VNum t_store) record]>
                      (frontend_data_store w))
  end.

(** the state after the active backend has dropped what it held under [k] *)
Definition drop_record (w : World) (k : string) : World :=
  match redis_client w with
  | Some r => mkWorld (Some (Redis.with_db (delete k) r)) (frontend_data_store w)
  | None => mkWorld None (delete k (frontend_data_store w))
  end.

(** the three shapes an outcome of [custom_claims_provider] can take *)
Inductive claims_outcome (clock : ClaimsClock) (event : TokenIssuanceEvent)
  : result pyval -> Prop :=
| outcome_default backend :
    backend = "redis" \/ backend = "memory" ->
    claims_outcome clock event
      (Return (provide_claims
                 (default_claims backend (event_correlationId event) (utcnow_iso clock))))
| outcome_frontend backend businessUnit deviceInfo customData dataAge :
    backend = "redis" \/ backend = "memory" ->
    claims_outcome clock event
      (Return (provide_claims
                 (frontend_claims backend (event_correlationId event) (utcnow_iso clock)
                                  businessUnit deviceInfo customData dataAge)))
| outcome_error detail :
    claims_outcome clock event (Raise (HTTPException 500 detail)).

(** ** Sample inputs *)

Module Sample.

(** the fallback store, empty *)
Definition memory_world : World := mkWorld None ∅.

(** a reachable Redis server, empty *)
Definition redis_world : World :=
  mkWorld (Some (Redis.Server ∅ [] (fun _ => "0"))) ∅.

(** a Redis server whose next command times out *)
Definition flaky_world : World :=
  mkWorld (Some (Redis.Server ∅ [Some (RedisTimeoutError "Timeout reading from socket")]
                              (fun _ => "0"))) ∅.

Definition creds : HTTPAuthorizationCredentials := mkCredentials "Bearer" "token".

Definition event_for (user_context : pydict) : TokenIssuanceEvent :=
  mkTokenIssuanceEvent "microsoft.graph.authenticationEvent.tokenIssuanceStart"
    (mkTokenIssuanceEventData
       (mkAuthenticationContext user_context "corr-1" [] "OAUTH2.0" [] [])).

(** store(u1, Finance, iPhone15, customData omitted) *)
Definition u1_request : FrontendData :=
  mkFrontendData "u1" "Finance" "iPhone15" None 1700000000.

Definition u1_again : FrontendData :=
  mkFrontendData "u1" "Sales" "Pixel8" (Some "vip") 1700000050.

Definition u1_event : TokenIssuanceEvent :=
  event_for [("userPrincipalName", VStr "u1"); ("id", VStr "0001")].

(** a request staged under the empty user identifier *)
Definition blank_request : FrontendData :=
  mkFrontendData "" "Finance" "iPhone15" None 1700000000.

(** a user mapping with an empty principal name and an empty id *)
Definition blank_event : TokenIssuanceEvent :=
  event_for [("userPrincipalName", VStr ""); ("id", VStr "")].

(** a user mapping with neither field *)
Definition anonymous_event : TokenIssuanceEvent := event_for [].

(** clock readings of an issue-claims call half a second after 1000 *)
Definition soon : ClaimsClock :=
  mkClaimsClock 1000.5 "2023-11-14T22:13:20.500000" 1000.5 1000.5 1000.6.

Definition later : ClaimsClock :=
  mkClaimsClock 1002 "2023-11-14T22:13:22" 1002 1002 1002.

(** the fallback store holding one entry stamped at 1000 *)
Definition stamped_world : World :=
  mkWorld None {[ "u1" := [("business_unit", VStr "Finance"); ("_timestamp", VNum 1000)] ]}.

End Sample.

(** * The rest of main.py *)

(** ** Further Redis commands

    [INFO] answers with a mapping that the model takes as an input;
    [KEYS *] lists the keys of the entries that are readable at that
    instant; [PING] answers or fails as the connection does. *)

Definition redis_info (reply : pydict)
  : Redis.server -> result pydict * Redis.server :=
  Redis.command (fun r => (Return reply, r)).

Definition live_keys (now : Q) (entries : list (string * Redis.entry)) : list string :=
  (filter (fun kv => Is_true (Redis.live now kv.2)) entries).*1.

Definition redis_keys (now : Q)
  : Redis.server -> result (list string) * Redis.server :=
  Redis.command (fun r => (Return (live_keys now (map_to_list (Redis.db r))), r)).

Definition redis_ping : Redis.server -> result bool * Redis.server :=
  Redis.command (fun r => (Return true, r)).

(** ** Configuration and start-up (main.py, lines 32-59) *)

(** [os.getenv(name, dflt)] *)
Definition getenv (environ : gmap string string) (name dflt : string) : string :=
  default dflt (environ !! name).

(** the three settings that the handlers read *)
Record Config : Type := mkConfig {
  AZURE_CLIENT_ID : string;
  AZURE_TENANT_ID : string;
  ENVIRONMENT : string
}.

Definition load_config (environ : gmap string string) : Config :=
  mkConfig (getenv environ "AZURE_CLIENT_ID" "your-client-id")
           (getenv environ "AZURE_TENANT_ID" "your-tenant-id")
           (getenv environ "ENVIRONMENT" "development").

(** lines 41-59: [redis.Redis(...)] does not connect, [ping()] does; only
    connection and timeout errors select the fallback, any other exception
    ends the import.  [r] is the server the settings point at. *)
Definition startup (r : Redis.server) : result World :=
  match redis_ping r with
  | (Return _, r') => Return (mkWorld (Some r') ∅)
  | (Raise (RedisConnectionError _), _) => Return (mkWorld None ∅)
  | (Raise (RedisTimeoutError _), _) => Return (mkWorld None ∅)
  | (Raise e, _) => Raise e
  end.

(** ** Storage statistics (main.py, lines 105-138) *)

(** [len(...)] as a Python number *)
Definition py_len (n : nat) : pyval := VNum (inject_Z (Z.of_nat n)).

(** [a and b] *)
Definition py_and (a b : pyval) : pyval := if truthy a then b else a.

(** a command sent through [redis_client], whatever it is bound to *)
Definition redis_do {A} (cmd : Redis.server -> result A * Redis.server) : M A :=
  redis <- read_redis_client ;;
  match redis with
  | Some r => on_redis r cmd
  | None => raise (AttributeError "'NoneType' object has no attribute")
  end.

(** [for x in xs: body x] *)
Fixpoint for_each {A} (xs : list A) (body : A -> M unit) : M unit :=
  match xs with
  | [] => ret tt
  | x :: xs' => body x ;;; for_each xs' body
  end.

(** the test of lines 122 and 318 on one entry *)
Definition is_expired (current_time : Q) (entry : pydict) : result bool :=
  match py_sub current_time (Dict.get entry "_timestamp" (VNum 0)) with
  | Return age => Return (Qgt_bool age 300)
  | Raise e => Raise e
  end.

(** the list comprehension of lines 120-123 and 316-319 over
    [frontend_data_store.items()]; the first entry whose test raises ends
    it *)
Fixpoint expired_keys_of (current_time : Q) (items : list (string * pydict))
  : result (list string) :=
  match items with
  | [] => Return []
  | (key, entry) :: rest =>
      match is_expired current_time entry with
      | Raise e => Raise e
      | Return expired =>
          match expired_keys_of current_time rest with
          | Raise e => Raise e
          | Return keys => Return (if expired then key :: keys else keys)
          end
      end
  end.

(** [frontend_data_store.items()], in the order of the map *)
Definition store_items : M (list (string * pydict)) :=
  fun w => (Return (map_to_list (frontend_data_store w)), w).

(** [len(frontend_data_store)] *)
Definition store_len : M nat :=
  fun w => (Return (size (frontend_data_store w)), w).

(** lines 119-125, and again 315-322: collect the expired keys, then
    delete them one by one *)
Definition sweep_expired (current_time : Q) : M (list string) :=
  items <- store_items ;;
  expired_keys <- lift (expired_keys_of current_time items) ;;
  for_each expired_keys (fun key => store_delitem (VStr key)) ;;;
  ret expired_keys.

Definition get_storage_stats (now : Q) (info_reply : pydict) : M pyval :=
  try_except
    (redis <- read_redis_client ;;
     match redis with
     | Some r =>
         info <- on_redis r (redis_info info_reply) ;;
         ret (VDict [ ("type", VStr "redis");
                      ("connected", VBool true);
                      ("used_memory", Dict.get info "used_memory_human" (VStr "N/A"));
                      ("connected_clients", Dict.get info "connected_clients" (VNum 0));
                      ("total_commands_processed",
                       Dict.get info "total_commands_processed" (VNum 0)) ])
     | None =>
         expired_keys <- sweep_expired now ;;
         stored_items <- store_len ;;
         ret (VDict [ ("type", VStr "memory");
                      ("connected", VBool true);
                      ("stored_items", py_len stored_items);
                      ("cleaned_expired", py_len (length expired_keys)) ])
     end)
    (fun e => ret (VDict [ ("type", VStr "unknown");
                           ("connected", VBool false);
                           ("error", VStr (str_exn e)) ])).

(** ** GET /health (main.py, lines 274-286) *)

Definition health_check (config : Config) (now : Q) (info_reply : pydict)
  (utcnow : string) : M pyval :=
  storage_stats <- get_storage_stats now info_reply ;;
  ret (VDict
         [ ("status", VStr "healthy");
           ("timestamp", VStr utcnow);
           ("environment", VStr (ENVIRONMENT config));
           ("storage", storage_stats);
           ("azure_config", VDict
              [ ("tenant_id", VStr (AZURE_TENANT_ID config));
                ("client_id_configured",
                 VBool (truthy (py_and (VStr (AZURE_CLIENT_ID config))
                                       (VBool (negb (String.eqb (AZURE_CLIENT_ID config)
                                                                "your-client-id")))))) ]) ]).

(** ** GET /debug/stored-data (main.py, lines 289-334) *)

(** the string read from Redis, as the Python [str] it is; only text that
    is not JSON is ever put in the dump as it stands *)
Definition raw_string (s : Redis.text) : result pyval :=
  match s with
  | Redis.RawText t => Return (VStr t)
  | Redis.JsonText _ => Raise (JSONDecodeError "Expecting value")
  end.

(** the loop of lines 299-305.  [json.loads] is the only call of the
    [try] block that raises [JSONDecodeError], so the inner handler runs
    with [data] bound to the text just read; the instant of the i-th GET
    is [at_get i]. *)
Fixpoint dump_redis (at_get : nat -> Q) (i : nat) (keys : list string)
  (stored_data : pydict) : M pydict :=
  match keys with
  | [] => ret stored_data
  | key :: rest =>
      data <- redis_do (Redis.get (at_get i) (VStr key)) ;;
      stored_data <-
        match data with
        | Some s =>
            if text_truthy s then
              try_except
                (v <- lift (json_loads s) ;;
                 ret (Dict.setitem key v stored_data))
                (fun e =>
                   match e with
                   | JSONDecodeError _ =>
                       raw <- lift (raw_string s) ;;
                       ret (Dict.setitem key raw stored_data)
                   | _ => raise e
                   end)
            else ret stored_data
        | None => ret stored_data
        end ;;
      dump_redis at_get (S i) rest stored_data
  end.

(** [frontend_data_store] as the value put in the response *)
Definition store_dump (m : gmap string pydict) : pydict :=
  (fun kv => (kv.1, VDict kv.2)) <$> map_to_list m.

Definition read_store : M (gmap string pydict) :=
  fun w => (Return (frontend_data_store w), w).

Definition debug_stored_data (now : Q) (at_get : nat -> Q) (info_reply : pydict)
  : M pyval :=
  try_except
    (redis <- read_redis_client ;;
     match redis with
     | Some r =>
         keys <- on_redis r (redis_keys now) ;;
         stored_data <- dump_redis at_get 0 keys [] ;;
         info <- redis_do (redis_info info_reply) ;;
         ret (VDict [ ("storage_type", VStr "redis");
                      ("stored_data", VDict stored_data);
                      ("count", py_len (length stored_data));
                      ("redis_info", VDict info) ])
     | None =>
         expired_keys <- sweep_expired now ;;
         store <- read_store ;;
         ret (VDict [ ("storage_type", VStr "memory");
                      ("stored_data", VDict (store_dump store));
                      ("count", py_len (size store));
                      ("cleaned_expired", py_len (length expired_keys)) ])
     end)
    (fun e => ret (VDict [ ("error", VStr (str_exn e));
                           ("storage_type", VStr "unknown") ])).

(** ** Vocabulary of the further statements *)

(** both backends hold under [k] in [w'] what they held in [w], and the
    active backend is of the same kind *)
Definition kept_at (k : string) (w w' : World) : Prop :=
  frontend_data_store w' !! k = frontend_data_store w !! k
  /\ match redis_client w, redis_client w' with
     | Some r, Some r' => Redis.db r' !! k = Redis.db r !! k
     | None, None => True
     | _, _ => False
     end.

(** nothing but what is held under [k] differs between [w] and [w'] *)
Definition touches_only (k : string) (w w' : World) : Prop :=
  forall k', k' <> k -> kept_at k' w w'.

(** every entry of the fallback store carries a numeric ['_timestamp'] *)
Definition well_stamped (m : gmap string pydict) : Prop :=
  forall k d, m !! k = Some d -> exists ts, Dict.lookup "_timestamp" d = Some (VNum ts).

(** the test of the sweep came out true for this entry *)
Definition stale (now : Q) (entry : pydict) : bool :=
  match is_expired now entry with
  | Return expired => expired
  | Raise _ => false
  end.

(** the storage section of the health body for the fallback store *)
Definition memory_stats (stored_items cleaned_expired : nat) : pyval :=
  VDict [ ("type", VStr "memory");
          ("connected", VBool true);
          ("stored_items", py_len stored_items);
          ("cleaned_expired", py_len cleaned_expired) ].

(** the storage section of the health body when the statistics failed *)
Definition unknown_stats (e : exn) : pyval :=
  VDict [ ("type", VStr "unknown");
          ("connected", VBool false);
          ("error", VStr (str_exn e)) ].

(** the body of GET /health around a storage section *)
Definition health_body (config : Config) (utcnow : string) (storage : pyval)
  (client_id_configured : bool) : pyval :=
  VDict [ ("status", VStr "healthy");
          ("timestamp", VStr utcnow);
          ("environment", VStr (ENVIRONMENT config));
          ("storage", storage);
          ("azure_config", VDict
             [ ("tenant_id", VStr (AZURE_TENANT_ID config));
               ("client_id_configured", VBool client_id_configured) ]) ].

(** [w'] holds nothing that [w] did not hold, in either backend, and the
    active backend is of the same kind *)
Definition shrinks (w w' : World) : Prop :=
  frontend_data_store w' ⊆ frontend_data_store w
  /\ match redis_client w, redis_client w' with
     | Some r, Some r' => Redis.db r' ⊆ Redis.db r
     | None, None => True
     | _, _ => False
     end.

(** the entries the sweep leaves *)
Definition fresh_entries (now : Q) (m : gmap string pydict) : gmap string pydict :=
  filter (fun kv => stale now kv.2 = false) m.

(** a user identifier that no backend can look up: neither a string nor
    a number *)
Definition unusable_key (v : pyval) : Prop :=
  match v with
  | VStr _ | VNum _ => False
  | _ => True
  end.

(** a computation that, from any state, leaves a state that [shrinks] *)
Definition shrinking {A} (m : M A) : Prop := forall w, shrinks w (m w).2.

(** a Redis command that leaves the data base as it was *)
Definition read_only {A} (cmd : Redis.server -> result A * Redis.server) : Prop :=
  forall r, Redis.db (cmd r).2 = Redis.db r.

(** the exceptions that the start-up code catches *)
Definition connection_failure (e : exn) : Prop :=
  match e with
  | RedisConnectionError _ | RedisTimeoutError _ => True
  | _ => False
  end.

(** what the dump shows for a string read from Redis: the decoded value
    of JSON text, other text as it is, nothing for the empty string *)
Definition shown (s : Redis.text) : option pyval :=
  match s with
  | Redis.JsonText v => Some v
  | Redis.RawText t => if String.eqb t "" then None else Some (VStr t)
  end.

(** the key under which the active backend looks an identifier up, if
    it can: a string as it is, and on Redis a number by the text the
    client sends for it; the fallback store has string keys only *)
Definition backend_key (w : World) (v : pyval) : option string :=
  match v with
  | VStr s => Some s
  | VNum q =>
      match redis_client w with
      | Some r => Some (Redis.repr_number r q)
      | None => None
      end
  | _ => None
  end.

Module Scenario.

(** the fallback store with an entry stamped at 1000 and one at 1200 *)
Definition two_users : World :=
  mkWorld None
    {[ "u1" := [("business_unit", VStr "Finance"); ("timestamp", VNum 999);
                ("_timestamp", VNum 1000)];
       "u2" := [("business_unit", VStr "Sales"); ("timestamp", VNum 1199);
                ("_timestamp", VNum 1200)] ]}.

Definition timeout : exn := RedisTimeoutError "Timeout reading from socket".

(** the failure of a command whose connection could not be opened *)
Definition refused : exn :=
  RedisConnectionError "Error 111 connecting to localhost:6379. Connection refused.".

(** a user mapping whose id is false *)
Definition false_id_event : TokenIssuanceEvent :=
  Sample.event_for [("userPrincipalName", VStr ""); ("id", VBool false)].

(** a Redis server holding u1's record, staged at 1000 *)
Definition redis_with_u1 (faults : list (option exn)) : World :=
  mkWorld
    (Some (Redis.Server
             {[ "u1" := Redis.Entry (json_dumps (VDict (data_to_store Sample.u1_request 1000)))
                                    (1000 + inject_Z 300) ]}
             faults (fun _ => "0")))
    ∅.

(** a Redis server that refuses the connection *)
Definition unreachable : Redis.server :=
  Redis.Server ∅ [Some (RedisConnectionError "Connection refused")] (fun _ => "0").

(** a user mapping whose id is a list *)
Definition list_id_event : TokenIssuanceEvent :=
  Sample.event_for [("id", VList [VStr "u1"])].

(** a user mapping with a principal name and a different id *)
Definition named_event : TokenIssuanceEvent :=
  Sample.event_for [("userPrincipalName", VStr "u2"); ("id", VStr "u1")].

Definition u2_event : TokenIssuanceEvent :=
  Sample.event_for [("userPrincipalName", VStr "u2")].

Definition config : Config :=
  load_config {[ "AZURE_CLIENT_ID" := "11111111-2222" ]}.

(** a Redis server holding, under u1, something another program wrote *)
Definition foreign_redis (v : pyval) : World :=
  mkWorld
    (Some (Redis.Server {[ "u1" := Redis.Entry (json_dumps v) 5000 ]} [] (fun _ => "0")))
    ∅.

(** a Redis server holding a JSON record, a text that is not JSON and an
    entry that expired at 50 *)
Definition mixed_redis : World :=
  mkWorld
    (Some (Redis.Server
             {[ "u1" := Redis.Entry (Redis.JsonText (VDict [("business_unit", VStr "Finance")]))
                                    5000;
                "note" := Redis.Entry (Redis.RawText "hello") 5000;
                "old" := Redis.Entry (Redis.RawText "gone") 50 ]}
             [] (fun _ => "0")))
    ∅.

End Scenario.

(** ** Basic facts *)

Lemma Qgt_bool_true (a b : Q) : (b < a)%Q -> Qgt_bool a b = true.
Proof.
  intros H. unfold Qgt_bool. destruct (Qle_bool a b) eqn:E; [|reflexivity].
  apply Qle_bool_iff in E. lra.
Qed.

Lemma Qgt_bool_false (a b : Q) : (a <= b)%Q -> Qgt_bool a b = false.
Proof.
  intros H. unfold Qgt_bool. apply Qle_bool_iff in H. now rewrite H.
Qed.

Lemma live_before (now : Q) (e : Redis.entry) :
  (now < Redis.expire_at e)%Q -> Redis.live now e = true.
Proof. intros H. unfold Redis.live. now apply (Qgt_bool_true _ _ H). Qed.

Lemma world_eta (w : World) :
  mkWorld (redis_client w) (frontend_data_store w) = w.
Proof. now destruct w. Qed.

Lemma server_eta (r : Redis.server) :
  Redis.Server (Redis.db r) (Redis.faults r) (Redis.repr_number r) = r.
Proof. now destruct r. Qed.

Lemma lookup_truthy (d : pydict) (k : string) (v : pyval) :
  Dict.lookup k d = Some v -> truthy (VDict d) = true.
Proof. destruct d; [discriminate | reflexivity]. Qed.

Lemma command_healthy {A} (op : Redis.server -> result A * Redis.server) r :
  Redis.faults r = [] -> Redis.command op r = op r.
Proof. intros H. unfold Redis.command. now rewrite H. Qed.

Ltac run := unfold bind, try_except, ret, raise, lift, read_redis_client,
  on_redis, store_get, store_delitem, store_pop, store_setitem; simpl.

(** ** The fallback store: [get_data] *)

Section Fallback.
Context (w : World) (k : string).
Hypothesis Hmem : redis_client w = None.

Lemma get_data_fallback_absent now :
  frontend_data_store w !! k = None ->
  get_data now (VStr k) w = (Return VNone, w).
Proof.
  intros Hk. unfold get_data. run. rewrite Hmem. simpl. now rewrite Hk.
Qed.

Lemma get_data_fallback_fresh now d ts :
  frontend_data_store w !! k = Some d ->
  Dict.lookup "_timestamp" d = Some (VNum ts) ->
  (now - ts <= 300)%Q ->
  get_data now (VStr k) w = (Return (VDict d), w).
Proof.
  intros Hk Hts Hage. unfold get_data. run. rewrite Hmem. simpl. rewrite Hk.
  pose proof (lookup_truthy _ _ _ Hts) as Ht. simpl in Ht. rewrite Ht.
  unfold Dict.get. rewrite Hts. simpl.
  now rewrite (Qgt_bool_false _ _ Hage).
Qed.

Lemma get_data_fallback_expired now d ts :
  frontend_data_store w !! k = Some d ->
  Dict.lookup "_timestamp" d = Some (VNum ts) ->
  (300 < now - ts)%Q ->
  get_data now (VStr k) w
  = (Return VNone, mkWorld None (delete k (frontend_data_store w))).
Proof.
  intros Hk Hts Hage. unfold get_data. run. rewrite Hmem. simpl. rewrite Hk.
  pose proof (lookup_truthy _ _ _ Hts) as Ht. simpl in Ht. rewrite Ht.
  unfold Dict.get. rewrite Hts. simpl.
  rewrite (Qgt_bool_true _ _ Hage). rewrite Hk, Hmem. reflexivity.
Qed.

End Fallback.

Arguments get_data : simpl never.

(** ** The fallback store: [store_data] and [delete_data] *)

Lemma store_data_fallback (w : World) now k d expiration :
  redis_client w = None ->
  store_data now k d expiration w
  = (Return true,
     mkWorld None (<[k := Dict.setitem "_timestamp" (VNum now) d]> (frontend_data_store w))).
Proof. intros H. unfold store_data. run. rewrite H. simpl. now rewrite ?H. Qed.

Lemma delete_data_fallback (w : World) now k :
  redis_client w = None ->
  delete_data now (VStr k) w
  = (Return true, mkWorld None (delete k (frontend_data_store w))).
Proof. intros H. unfold delete_data. run. rewrite H. simpl. now rewrite ?H. Qed.

(** ** The Redis backend, on a healthy connection *)

Section Networked.
Context (w : World) (r : Redis.server) (k : string).
Hypothesis Hred : redis_client w = Some r.
Hypothesis Hok : Redis.faults r = [].

Lemma store_data_redis now d expiration :
  (0 < expiration)%Z ->
  store_data now k d expiration w
  = (Return true,
     mkWorld (Some (Redis.with_db
                      (insert k (Redis.Entry (json_dumps (VDict d))
                                             (now + inject_Z expiration))) r))
             (frontend_data_store w)).
Proof.
  intros Hexp. unfold store_data. run. rewrite Hred. simpl.
  unfold Redis.setex. rewrite (command_healthy _ _ Hok). simpl.
  destruct (Z.leb_spec expiration 0); [lia | reflexivity].
Qed.

Lemma get_data_redis_absent now :
  Redis.db r !! k = None ->
  get_data now (VStr k) w = (Return VNone, w).
Proof.
  intros Hk. unfold get_data. run. rewrite Hred. simpl.
  unfold Redis.get. rewrite (command_healthy _ _ Hok). simpl. rewrite Hk.
  simpl. rewrite <- Hred. now rewrite world_eta.
Qed.

Lemma get_data_redis_live now v expiry :
  Redis.db r !! k = Some (Redis.Entry (json_dumps v) expiry) ->
  (now < expiry)%Q ->
  get_data now (VStr k) w = (Return v, w).
Proof.
  intros Hk Hlive. unfold get_data. run. rewrite Hred. simpl.
  unfold Redis.get. rewrite (command_healthy _ _ Hok). simpl. rewrite Hk.
  rewrite live_before by exact Hlive. simpl.
  rewrite <- Hred. now rewrite world_eta.
Qed.

Lemma delete_data_redis now :
  delete_data now (VStr k) w
  = (Return true,
     mkWorld (Some (Redis.with_db (delete k) r)) (frontend_data_store w)).
Proof.
  unfold delete_data. run. rewrite Hred. simpl.
  unfold Redis.delete. rewrite (command_healthy _ _ Hok). simpl.
  destruct (Redis.db r !! k) eqn:Hk; simpl; [reflexivity|].
  unfold Redis.with_db. rewrite (delete_id _ _ Hk). now rewrite server_eta.
Qed.

End Networked.

Arguments store_data : simpl never.
Arguments delete_data : simpl never.

(** ** The two handlers on a healthy backend *)

Lemma healthy_put w k record t : healthy w -> healthy (put_record w k record t).
Proof. unfold healthy, put_record. now destruct (redis_client w). Qed.

Lemma healthy_drop w k : healthy w -> healthy (drop_record w k).
Proof. unfold healthy, drop_record. now destruct (redis_client w). Qed.

Lemma staged_in_put w k record t : staged_in (put_record w k record t) k record t.
Proof.
  unfold staged_in, put_record.
  destruct (redis_client w); simpl; apply lookup_insert_eq.
Qed.

Lemma nothing_staged_drop w k : nothing_staged (drop_record w k) k.
Proof.
  unfold nothing_staged, drop_record.
  destruct (redis_client w); simpl; apply lookup_delete_eq.
Qed.

Lemma backend_put w k record t :
  storage_type (redis_client (put_record w k record t)) = storage_type (redis_client w).
Proof. unfold put_record. now destruct (redis_client w). Qed.

Lemma backend_drop w k :
  storage_type (redis_client (drop_record w k)) = storage_type (redis_client w).
Proof. unfold drop_record. now destruct (redis_client w). Qed.

Lemma put_record_twice w k record1 t1 record2 t2 :
  put_record (put_record w k record1 t1) k record2 t2 = put_record w k record2 t2.
Proof.
  unfold put_record. destruct (redis_client w); simpl.
  - unfold Redis.with_db. simpl. now rewrite insert_insert_eq.
  - now rewrite insert_insert_eq.
Qed.

Lemma store_data_healthy w now k record :
  healthy w ->
  store_data now k record 300 w = (Return true, put_record w k record now).
Proof.
  unfold healthy, put_record. intros H.
  destruct (redis_client w) as [r|] eqn:E.
  - now apply store_data_redis.
  - now apply store_data_fallback.
Qed.

Lemma delete_data_healthy w now k :
  healthy w ->
  delete_data now (VStr k) w = (Return true, drop_record w k).
Proof.
  unfold healthy, drop_record. intros H.
  destruct (redis_client w) as [r|] eqn:E.
  - now apply delete_data_redis.
  - now apply delete_data_fallback.
Qed.

Lemma get_data_healthy_absent w now k :
  healthy w -> nothing_staged w k ->
  get_data now (VStr k) w = (Return VNone, w).
Proof.
  unfold healthy, nothing_staged. intros H Hk.
  destruct (redis_client w) as [r|] eqn:E.
  - now apply (get_data_redis_absent w r).
  - now apply get_data_fallback_absent.
Qed.

Lemma timestamp_of_stamped (record : pydict) (t : Q) :
  Dict.lookup "_timestamp" (Dict.setitem "_timestamp" (VNum t) record) = Some (VNum t).
Proof.
  induction record as [|[k v] record IH]; [reflexivity|].
  cbn [Dict.lookup Dict.setitem].
  destruct (String.eqb "_timestamp" k) eqn:E; cbn [Dict.lookup].
  - now rewrite String.eqb_refl.
  - now rewrite E.
Qed.

(** within the window, [get_data] hands back what was staged: the stamped
    dict from the fallback store, the dict as written from Redis *)
Lemma get_data_healthy_staged w now k record t_store :
  healthy w -> staged_in w k record t_store ->
  (now - t_store < 300)%Q ->
  exists d, get_data now (VStr k) w = (Return (VDict d), w)
            /\ (d = record \/ d = Dict.setitem "_timestamp" (VNum t_store) record).
Proof.
  unfold healthy, staged_in. intros H Hk Hage.
  destruct (redis_client w) as [r|] eqn:E.
  - exists record. split; [|now left].
    apply (get_data_redis_live w r k E H now (VDict record) _ Hk).
    change (inject_Z 300) with 300%Q. lra.
  - eexists. split; [|now right].
    apply (get_data_fallback_fresh w k E now _ t_store Hk).
    + apply timestamp_of_stamped.
    + lra.
Qed.

Lemma store_frontend_data_healthy w t_request t_store fd :
  healthy w ->
  store_frontend_data t_request t_store fd w
  = (Return (stored_response fd (storage_type (redis_client w))),
     put_record w (user_id fd) (data_to_store fd t_request) t_store).
Proof.
  intros H. unfold store_frontend_data. run.
  rewrite (store_data_healthy _ _ _ _ H). simpl.
  unfold stored_response. now rewrite backend_put.
Qed.

Arguments Dict.get : simpl never.

Section Claims.
Context (clock : ClaimsClock) (event : TokenIssuanceEvent)
        (creds : HTTPAuthorizationCredentials).

(** the default path: whatever makes [get_data] answer [None] *)
Lemma claims_when_absent w w' :
  get_data (at_get clock) (user_id_of (event_user event)) w = (Return VNone, w') ->
  custom_claims_provider clock event creds w
  = (Return (provide_claims
               (default_claims (storage_type (redis_client w'))
                               (event_correlationId event) (utcnow_iso clock))),
     w').
Proof.
  unfold event_user. intros Hget.
  unfold custom_claims_provider. run. now rewrite Hget.
Qed.

(** the staged path, for any dict that carries a numeric ["timestamp"] *)
Lemma claims_when_present w w1 w2 d t_request deleted :
  get_data (at_get clock) (user_id_of (event_user event)) w = (Return (VDict d), w1) ->
  Dict.lookup "timestamp" d = Some (VNum t_request) ->
  delete_data (at_delete clock) (user_id_of (event_user event)) w1 = (Return deleted, w2) ->
  custom_claims_provider clock event creds w
  = (Return (provide_claims
               (frontend_claims (storage_type (redis_client w1))
                  (event_correlationId event) (utcnow_iso clock)
                  (Dict.get d "business_unit" (VStr "Unknown"))
                  (Dict.get d "device_info" (VStr "Unknown"))
                  (Dict.get d "custom_data" (VStr ""))
                  (at_age clock - t_request))),
     w2).
Proof.
  unfold event_user. intros Hget Hts Hdel.
  unfold custom_claims_provider. run. rewrite Hget.
  rewrite (lookup_truthy _ _ _ Hts). unfold py_get.
  replace (Dict.get d "timestamp" (VNum (at_age_default clock))) with (VNum t_request)
    by (unfold Dict.get; now rewrite Hts).
  simpl. now rewrite Hdel.
Qed.

End Claims.

Lemma staged_fields (fd : FrontendData) (t_request : Q) (d : pydict) (t_store : Q) :
  d = data_to_store fd t_request
  \/ d = Dict.setitem "_timestamp" (VNum t_store) (data_to_store fd t_request) ->
  Dict.lookup "timestamp" d = Some (VNum t_request)
  /\ Dict.get d "business_unit" (VStr "Unknown") = VStr (business_unit fd)
  /\ Dict.get d "device_info" (VStr "Unknown") = VStr (device_info fd)
  /\ Dict.get d "custom_data" (VStr "") = of_optional_str (custom_data fd).
Proof. intros [-> | ->]; repeat split. Qed.

(** staged, then asked for within the window on a healthy backend: the
    staged-data response, and the record is gone *)
Lemma claims_healthy_staged w clock event creds fd t_request t_store :
  healthy w ->
  staged_in w (user_id fd) (data_to_store fd t_request) t_store ->
  user_id_of (event_user event) = VStr (user_id fd) ->
  (at_get clock - t_store < 300)%Q ->
  custom_claims_provider clock event creds w
  = (Return (provide_claims
               (frontend_claims (storage_type (redis_client w))
                  (event_correlationId event) (utcnow_iso clock)
                  (VStr (business_unit fd)) (VStr (device_info fd))
                  (of_optional_str (custom_data fd))
                  (at_age clock - t_request))),
     drop_record w (user_id fd)).
Proof.
  intros H Hst Huid Hage.
  destruct (get_data_healthy_staged _ _ _ _ _ H Hst Hage) as (d & Hget & Hd).
  destruct (staged_fields fd t_request d t_store Hd) as (Hts & Hbu & Hdi & Hcd).
  rewrite <- Hbu, <- Hdi, <- Hcd.
  apply (claims_when_present clock event creds w w _ d t_request true).
  - now rewrite Huid.
  - exact Hts.
  - rewrite Huid. now apply delete_data_healthy.
Qed.

(** nothing staged, healthy backend: the default response, state untouched *)
Lemma claims_healthy_absent w clock event creds k :
  healthy w -> nothing_staged w k ->
  user_id_of (event_user event) = VStr k ->
  custom_claims_provider clock event creds w
  = (Return (provide_claims
               (default_claims (storage_type (redis_client w))
                               (event_correlationId event) (utcnow_iso clock))),
     w).
Proof.
  intros H Hk Huid. apply claims_when_absent.
  rewrite Huid. now apply get_data_healthy_absent.
Qed.

(** ** Exceptions stop at the storage helpers *)

Lemma try_except_ret_total {A} (body : M A) (fallback : A) (w : World) :
  exists a w', try_except body (fun _ => ret fallback) w = (Return a, w').
Proof.
  unfold try_except, ret. destruct (body w) as [[a|e] w']; eauto.
Qed.

Lemma store_data_total w now k d expiration :
  exists b w', store_data now k d expiration w = (Return b, w').
Proof. apply try_except_ret_total. Qed.

Lemma get_data_total w now key :
  exists v w', get_data now key w = (Return v, w').
Proof. apply try_except_ret_total. Qed.

Lemma delete_data_total w now key :
  exists b w', delete_data now key w = (Return b, w').
Proof. apply try_except_ret_total. Qed.

(** a transport failure scheduled for the next command *)
Section Faulty.
Context (w : World) (r : Redis.server) (e : exn) (fs : list (option exn)).
Hypothesis Hred : redis_client w = Some r.
Hypothesis Hfault : Redis.faults r = Some e :: fs.

Lemma store_data_fault now k d expiration :
  store_data now k d expiration w = (Return false, mkWorld (Some (Redis.with_faults fs r)) (frontend_data_store w)).
Proof.
  unfold store_data. run. rewrite Hred. simpl.
  unfold Redis.setex, Redis.command. now rewrite Hfault.
Qed.

Lemma get_data_fault now key :
  get_data now key w = (Return VNone, mkWorld (Some (Redis.with_faults fs r)) (frontend_data_store w)).
Proof.
  unfold get_data. run. rewrite Hred. simpl.
  unfold Redis.get, Redis.command. now rewrite Hfault.
Qed.

Lemma delete_data_fault now key :
  delete_data now key w = (Return false, mkWorld (Some (Redis.with_faults fs r)) (frontend_data_store w)).
Proof.
  unfold delete_data. run. rewrite Hred. simpl.
  unfold Redis.delete, Redis.command. now rewrite Hfault.
Qed.

End Faulty.

(** ** Lookups that find nothing, whatever the state of the connection *)

Lemma get_data_nothing_staged w now k :
  nothing_staged w k ->
  exists w', get_data now (VStr k) w = (Return VNone, w')
             /\ storage_type (redis_client w') = storage_type (redis_client w)
             /\ nothing_staged w' k
             /\ frontend_data_store w' = frontend_data_store w.
Proof.
  unfold nothing_staged. intros Hk.
  destruct (redis_client w) as [r|] eqn:E.
  - unfold get_data. run. rewrite E. simpl. unfold Redis.get, Redis.command.
    destruct (Redis.faults r) as [|[e|] fs]; simpl; rewrite ?Hk; simpl;
      eexists; (split; [reflexivity|]); simpl; auto.
  - exists w. rewrite (get_data_fallback_absent w k E now Hk).
    rewrite E. auto.
Qed.

Lemma get_data_None w now :
  exists w', get_data now VNone w = (Return VNone, w')
             /\ storage_type (redis_client w') = storage_type (redis_client w)
             /\ frontend_data_store w' = frontend_data_store w.
Proof.
  destruct (redis_client w) as [r|] eqn:E.
  - unfold get_data. run. rewrite E. simpl. unfold Redis.get, Redis.command.
    destruct (Redis.faults r) as [|[e|] fs]; simpl;
      eexists; (split; [reflexivity|]); simpl; auto.
  - exists w. unfold get_data. run. rewrite E. simpl. auto.
Qed.

(** ** The shape of every outcome of [custom_claims_provider] *)

Lemma backend_name (o : option Redis.server) :
  storage_type o = "redis" \/ storage_type o = "memory".
Proof. destruct o; [now left | now right]. Qed.

Lemma custom_claims_provider_outcome w clock event creds :
  claims_outcome clock event (custom_claims_provider clock event creds w).1.
Proof.
  unfold custom_claims_provider. run.
  destruct (get_data_total w (at_get clock)
              (user_id_of (user (authenticationContext (data event)))))
    as (v & w1 & ->).
  destruct (truthy v) eqn:Ht.
  - destruct v as [| b | q | s | l | d]; simpl; try apply outcome_error.
    destruct (py_sub (at_age clock) (Dict.get d "timestamp" (VNum (at_age_default clock))))
      as [age|e]; simpl; [|apply outcome_error].
    destruct (delete_data_total w1 (at_delete clock)
                (user_id_of (user (authenticationContext (data event)))))
      as (b & w2 & ->).
    simpl. apply outcome_frontend, backend_name.
  - simpl. apply outcome_default, backend_name.
Qed.

(** * The claims *)

(** ** Expiry in the fallback store *)

(** C3: in the in-process fallback store, for every key, an entry whose
    stored creation timestamp is more than 300 seconds in the past is
    treated as absent by [get_data] (it returns [None]) and is removed from
    the map by that very call; nothing but the call removes it. *)
Theorem expired_entry_is_absent_and_removed
  (w : World) (k : string) (d : pydict) (ts now : Q) :
  redis_client w = None ->
  frontend_data_store w !! k = Some d ->
  Dict.lookup "_timestamp" d = Some (VNum ts) ->
  (300 < now - ts)%Q ->
  exists w',
    get_data now (VStr k) w = (Return VNone, w')
    /\ frontend_data_store w' = delete k (frontend_data_store w)
    /\ frontend_data_store w' !! k = None
    /\ redis_client w' = None.
Proof.
  intros Hmem Hk Hts Hage.
  eexists. split; [now apply (get_data_fallback_expired w k Hmem now d ts)|].
  simpl. repeat split. apply lookup_delete_eq.
Qed.

Lemma expired_entry_witness :
  exists w',
    get_data 1301 (VStr "u1") Sample.stamped_world = (Return VNone, w')
    /\ frontend_data_store w' = delete "u1" (frontend_data_store Sample.stamped_world)
    /\ frontend_data_store w' !! "u1" = None
    /\ redis_client w' = None.
Proof.
  apply (expired_entry_is_absent_and_removed Sample.stamped_world "u1"
           [("business_unit", VStr "Finance"); ("_timestamp", VNum 1000)] 1000 1301);
    [reflexivity | reflexivity | reflexivity | lra].
Defined.

(** C8: in the in-process fallback store the expiry comparison is strict:
    for every key, an entry whose age is 300 seconds or less, exactly 300
    included, is still returned by [get_data], and the map is left as it
    was. *)
Theorem entry_aged_at_most_ttl_is_present
  (w : World) (k : string) (d : pydict) (ts now : Q) :
  redis_client w = None ->
  frontend_data_store w !! k = Some d ->
  Dict.lookup "_timestamp" d = Some (VNum ts) ->
  (now - ts <= 300)%Q ->
  get_data now (VStr k) w = (Return (VDict d), w).
Proof.
  intros Hmem Hk Hts Hage. now apply (get_data_fallback_fresh w k Hmem now d ts).
Qed.

Lemma entry_aged_exactly_ttl_witness :
  get_data 1300 (VStr "u1") Sample.stamped_world
  = (Return (VDict [("business_unit", VStr "Finance"); ("_timestamp", VNum 1000)]),
     Sample.stamped_world).
Proof.
  apply (entry_aged_at_most_ttl_is_present Sample.stamped_world "u1" _ 1000 1300);
    [reflexivity | reflexivity | reflexivity | lra].
Defined.

(** ** Failures of the store operations *)

(** C5: for every key and value, [store_data], [get_data] and
    [delete_data] never let an exception reach their caller: each always
    returns a value, and a failure inside (here a failing Redis command) is
    signalled by that value alone, [False] from put and delete and [None]
    from get. *)
Theorem store_operations_never_raise
  (w : World) (now : Q) (k : string) (key : pyval) (d : pydict) (expiration : Z) :
  (exists b w', store_data now k d expiration w = (Return b, w'))
  /\ (exists v w', get_data now key w = (Return v, w'))
  /\ (exists b w', delete_data now key w = (Return b, w'))
  /\ (forall r e fs,
        redis_client w = Some r -> Redis.faults r = Some e :: fs ->
        (store_data now k d expiration w).1 = Return false
        /\ (get_data now key w).1 = Return VNone
        /\ (delete_data now key w).1 = Return false).
Proof.
  split; [apply store_data_total|].
  split; [apply get_data_total|].
  split; [apply delete_data_total|].
  intros r e fs Hred Hfault.
  rewrite (store_data_fault w r e fs Hred Hfault).
  rewrite (get_data_fault w r e fs Hred Hfault).
  rewrite (delete_data_fault w r e fs Hred Hfault).
  auto.
Qed.

Lemma store_operations_fault_witness :
  (store_data 1000 "u1" (data_to_store Sample.u1_request 1000) 300 Sample.flaky_world).1
  = Return false
  /\ (get_data 1000 (VStr "u1") Sample.flaky_world).1 = Return VNone
  /\ (delete_data 1000 (VStr "u1") Sample.flaky_world).1 = Return false.
Proof.
  refine (proj2 (proj2 (proj2
    (store_operations_never_raise Sample.flaky_world 1000 "u1" (VStr "u1")
       (data_to_store Sample.u1_request 1000) 300))) _ _ _ _ _);
    reflexivity.
Defined.

(** ** Stage, then consume *)

(** C1: for every userId, on a healthy backend and with a clock that does
    not run backwards, staging data and then asking for claims within the
    300 s window returns exactly the staged fields (businessUnit,
    deviceInfo, customData) and a non-negative dataAge; that call deletes
    the record before it returns, so a second call for the same userId, at
    whatever later instant, finds nothing and gets the default claims. *)
Theorem stage_then_consume_once
  (w : World) (fd : FrontendData) (t_request t_store : Q)
  (clock clock' : ClaimsClock) (event : TokenIssuanceEvent)
  (creds : HTTPAuthorizationCredentials) :
  healthy w ->
  user_id_of (event_user event) = VStr (user_id fd) ->
  (t_request <= at_age clock)%Q ->
  (at_get clock - t_store < 300)%Q ->
  exists stored w1 w2,
    store_frontend_data t_request t_store fd w = (Return stored, w1)
    /\ custom_claims_provider clock event creds w1
       = (Return (provide_claims
                    (frontend_claims (storage_type (redis_client w))
                       (event_correlationId event) (utcnow_iso clock)
                       (VStr (business_unit fd)) (VStr (device_info fd))
                       (of_optional_str (custom_data fd))
                       (at_age clock - t_request))),
          w2)
    /\ (0 <= at_age clock - t_request)%Q
    /\ nothing_staged w2 (user_id fd)
    /\ get_data (at_get clock') (VStr (user_id fd)) w2 = (Return VNone, w2)
    /\ custom_claims_provider clock' event creds w2
       = (Return (provide_claims
                    (default_claims (storage_type (redis_client w))
                       (event_correlationId event) (utcnow_iso clock'))),
          w2).
Proof.
  intros H Huid Hclock Hage.
  set (w1 := put_record w (user_id fd) (data_to_store fd t_request) t_store).
  set (w2 := drop_record w1 (user_id fd)).
  assert (H1 : healthy w1) by now apply healthy_put.
  assert (H2 : healthy w2) by now apply healthy_drop.
  assert (Hgone : nothing_staged w2 (user_id fd)) by apply nothing_staged_drop.
  assert (Hb : storage_type (redis_client w2) = storage_type (redis_client w)).
  { unfold w2. rewrite backend_drop. apply backend_put. }
  exists (stored_response fd (storage_type (redis_client w))), w1, w2.
  split; [now apply store_frontend_data_healthy|].
  split.
  { rewrite <- (backend_put w (user_id fd) (data_to_store fd t_request) t_store).
    apply claims_healthy_staged with (t_store := t_store); auto.
    apply staged_in_put. }
  split; [lra|].
  split; [exact Hgone|].
  split; [now apply get_data_healthy_absent|].
  rewrite <- Hb. now apply claims_healthy_absent with (k := user_id fd).
Qed.

Lemma stage_then_consume_once_witness :
  exists stored w1 w2,
    store_frontend_data 1000 1000 Sample.u1_request Sample.redis_world = (Return stored, w1)
    /\ custom_claims_provider Sample.soon Sample.u1_event Sample.creds w1
       = (Return (provide_claims
                    (frontend_claims "redis" "corr-1" (utcnow_iso Sample.soon)
                       (VStr "Finance") (VStr "iPhone15") VNone
                       (at_age Sample.soon - 1000))),
          w2)
    /\ (0 <= at_age Sample.soon - 1000)%Q
    /\ nothing_staged w2 "u1"
    /\ get_data (at_get Sample.later) (VStr "u1") w2 = (Return VNone, w2)
    /\ custom_claims_provider Sample.later Sample.u1_event Sample.creds w2
       = (Return (provide_claims
                    (default_claims "redis" "corr-1" (utcnow_iso Sample.later))),
          w2).
Proof.
  apply (stage_then_consume_once Sample.redis_world Sample.u1_request 1000 1000
           Sample.soon Sample.later Sample.u1_event Sample.creds);
    [reflexivity | reflexivity | simpl; lra | simpl; lra].
Defined.

(** C2: for every userId under which the active backend holds no record,
    [get_data] returns [None] and the claims are exactly the fixed fields
    followed by businessUnit="Default", deviceInfo="Server-Generated",
    customData="No frontend data available", dataSource="default", with no
    dataAge entry. *)
Theorem never_staged_gets_default_claims
  (w : World) (clock : ClaimsClock) (event : TokenIssuanceEvent)
  (creds : HTTPAuthorizationCredentials) (k : string) :
  nothing_staged w k ->
  user_id_of (event_user event) = VStr k ->
  exists w' claims,
    get_data (at_get clock) (VStr k) w = (Return VNone, w')
    /\ custom_claims_provider clock event creds w = (Return (provide_claims claims), w')
    /\ claims = [ ("apiVersion", VStr "1.0.0");
                  ("correlationId", VStr (event_correlationId event));
                  ("timestamp", VStr (utcnow_iso clock));
                  ("source", VStr "custom-claims-provider");
                  ("storage_type", VStr (storage_type (redis_client w)));
                  ("businessUnit", VStr "Default");
                  ("deviceInfo", VStr "Server-Generated");
                  ("customData", VStr "No frontend data available");
                  ("dataSource", VStr "default") ]
    /\ Dict.lookup "dataAge" claims = None
    /\ nothing_staged w' k.
Proof.
  intros Hk Huid.
  destruct (get_data_nothing_staged w (at_get clock) k Hk) as (w' & Hget & Hb & Hk' & _).
  exists w'. eexists. split; [exact Hget|].
  split; [apply claims_when_absent; now rewrite Huid|].
  rewrite Hb. repeat split. exact Hk'.
Qed.

Lemma never_staged_witness :
  exists w' claims,
    get_data (at_get Sample.soon) (VStr "u1") Sample.memory_world = (Return VNone, w')
    /\ custom_claims_provider Sample.soon Sample.u1_event Sample.creds Sample.memory_world
       = (Return (provide_claims claims), w')
    /\ claims = [ ("apiVersion", VStr "1.0.0");
                  ("correlationId", VStr "corr-1");
                  ("timestamp", VStr (utcnow_iso Sample.soon));
                  ("source", VStr "custom-claims-provider");
                  ("storage_type", VStr "memory");
                  ("businessUnit", VStr "Default");
                  ("deviceInfo", VStr "Server-Generated");
                  ("customData", VStr "No frontend data available");
                  ("dataSource", VStr "default") ]
    /\ Dict.lookup "dataAge" claims = None
    /\ nothing_staged w' "u1".
Proof.
  apply (never_staged_gets_default_claims Sample.memory_world Sample.soon
           Sample.u1_event Sample.creds "u1"); reflexivity.
Defined.

(** ** Staging twice *)

(** C6: for every userId, staging twice in sequence overwrites: the state
    after the two calls is the state the second call alone would have
    left, so one record exists for that userId, and the next issue-claims
    call returns exactly the fields of the last stage and leaves nothing
    behind. *)
Theorem restaging_overwrites
  (w : World) (fd1 fd2 : FrontendData)
  (t_request1 t_store1 t_request2 t_store2 : Q)
  (clock : ClaimsClock) (event : TokenIssuanceEvent)
  (creds : HTTPAuthorizationCredentials) :
  healthy w ->
  user_id fd1 = user_id fd2 ->
  user_id_of (event_user event) = VStr (user_id fd2) ->
  (at_get clock - t_store2 < 300)%Q ->
  exists stored1 w1 stored2 w2 w3,
    store_frontend_data t_request1 t_store1 fd1 w = (Return stored1, w1)
    /\ store_frontend_data t_request2 t_store2 fd2 w1 = (Return stored2, w2)
    /\ store_frontend_data t_request2 t_store2 fd2 w = (Return stored2, w2)
    /\ custom_claims_provider clock event creds w2
       = (Return (provide_claims
                    (frontend_claims (storage_type (redis_client w))
                       (event_correlationId event) (utcnow_iso clock)
                       (VStr (business_unit fd2)) (VStr (device_info fd2))
                       (of_optional_str (custom_data fd2))
                       (at_age clock - t_request2))),
          w3)
    /\ nothing_staged w3 (user_id fd2).
Proof.
  intros H Hsame Huid Hage.
  set (w1 := put_record w (user_id fd1) (data_to_store fd1 t_request1) t_store1).
  set (w2 := put_record w (user_id fd2) (data_to_store fd2 t_request2) t_store2).
  assert (H1 : healthy w1) by now apply healthy_put.
  assert (H2 : healthy w2) by now apply healthy_put.
  assert (Hb1 : storage_type (redis_client w1) = storage_type (redis_client w))
    by apply backend_put.
  assert (Hb2 : storage_type (redis_client w2) = storage_type (redis_client w))
    by apply backend_put.
  exists (stored_response fd1 (storage_type (redis_client w))), w1,
         (stored_response fd2 (storage_type (redis_client w))), w2,
         (drop_record w2 (user_id fd2)).
  split; [now apply store_frontend_data_healthy|].
  split.
  { rewrite (store_frontend_data_healthy w1 _ _ _ H1), Hb1.
    unfold w1. rewrite Hsame. now rewrite put_record_twice. }
  split; [now apply store_frontend_data_healthy|].
  split.
  { rewrite <- Hb2.
    apply claims_healthy_staged with (t_store := t_store2); auto.
    apply staged_in_put. }
  apply nothing_staged_drop.
Qed.

Lemma restaging_overwrites_witness :
  exists stored1 w1 stored2 w2 w3,
    store_frontend_data 1000 1000 Sample.u1_request Sample.memory_world
    = (Return stored1, w1)
    /\ store_frontend_data 1000.2 1000.2 Sample.u1_again w1 = (Return stored2, w2)
    /\ store_frontend_data 1000.2 1000.2 Sample.u1_again Sample.memory_world
       = (Return stored2, w2)
    /\ custom_claims_provider Sample.soon Sample.u1_event Sample.creds w2
       = (Return (provide_claims
                    (frontend_claims "memory" "corr-1" (utcnow_iso Sample.soon)
                       (VStr "Sales") (VStr "Pixel8") (VStr "vip")
                       (at_age Sample.soon - 1000.2))),
          w3)
    /\ nothing_staged w3 "u1".
Proof.
  apply (restaging_overwrites Sample.memory_world Sample.u1_request Sample.u1_again
           1000 1000 1000.2 1000.2 Sample.soon Sample.u1_event Sample.creds);
    [exact I | reflexivity | reflexivity | simpl; lra].
Defined.

(** ** The client-supplied timestamp *)

(** C9: the timestamp field of the store request body has no effect: two
    store requests identical except for it produce the same response and
    the same state; the record's stored timestamp is the server clock read
    at store time, and the dataAge of a later issue-claims call is counted
    from that reading. *)
Theorem client_timestamp_is_ignored
  (w : World) (fd fd' : FrontendData) (t_request t_store : Q)
  (clock : ClaimsClock) (event : TokenIssuanceEvent)
  (creds : HTTPAuthorizationCredentials) :
  user_id fd = user_id fd' ->
  business_unit fd = business_unit fd' ->
  device_info fd = device_info fd' ->
  custom_data fd = custom_data fd' ->
  store_frontend_data t_request t_store fd w
  = store_frontend_data t_request t_store fd' w
  /\ Dict.lookup "timestamp" (data_to_store fd' t_request) = Some (VNum t_request)
  /\ (healthy w ->
      user_id_of (event_user event) = VStr (user_id fd) ->
      (at_get clock - t_store < 300)%Q ->
      exists stored w1 claims w2,
        store_frontend_data t_request t_store fd' w = (Return stored, w1)
        /\ staged_in w1 (user_id fd) (data_to_store fd' t_request) t_store
        /\ custom_claims_provider clock event creds w1
           = (Return (provide_claims claims), w2)
        /\ Dict.lookup "dataAge" claims = Some (VNum (at_age clock - t_request))).
Proof.
  intros Hu Hb Hd Hc.
  assert (Hrec : forall t, data_to_store fd t = data_to_store fd' t).
  { intros t. unfold data_to_store. now rewrite Hb, Hd, Hc. }
  split.
  { unfold store_frontend_data. now rewrite Hrec, Hu. }
  split; [reflexivity|].
  intros H Huid Hage.
  rewrite Hu in *.
  do 4 eexists.
  split; [now apply store_frontend_data_healthy|].
  split; [apply staged_in_put|].
  split.
  { apply claims_healthy_staged with (fd := fd') (t_store := t_store); auto.
    - now apply healthy_put.
    - apply staged_in_put. }
  reflexivity.
Qed.

Lemma client_timestamp_witness :
  store_frontend_data 1000 1000 Sample.u1_request Sample.memory_world
  = store_frontend_data 1000 1000
      (mkFrontendData "u1" "Finance" "iPhone15" None 42) Sample.memory_world
  /\ exists stored w1 claims w2,
       store_frontend_data 1000 1000
         (mkFrontendData "u1" "Finance" "iPhone15" None 42) Sample.memory_world
       = (Return stored, w1)
       /\ staged_in w1 "u1"
            (data_to_store (mkFrontendData "u1" "Finance" "iPhone15" None 42) 1000) 1000
       /\ custom_claims_provider Sample.soon Sample.u1_event Sample.creds w1
          = (Return (provide_claims claims), w2)
       /\ Dict.lookup "dataAge" claims = Some (VNum (at_age Sample.soon - 1000)).
Proof.
  pose proof (client_timestamp_is_ignored Sample.memory_world Sample.u1_request
                (mkFrontendData "u1" "Finance" "iPhone15" None 42) 1000 1000
                Sample.soon Sample.u1_event Sample.creds
                eq_refl eq_refl eq_refl eq_refl) as (Hsame & _ & Hage).
  split; [exact Hsame|].
  apply Hage; [exact I | reflexivity | simpl; lra].
Defined.

(** ** The response envelope *)

(** C7: every successful issue-claims response is the fixed protocol
    envelope: a data object whose actions field is a one-element array
    whose single action carries the fixed @odata.type tag and a claims
    mapping; the mapping always has apiVersion, correlationId (the one of
    the request), timestamp, source and storage_type, and besides them
    either the staged fields or the default fields. *)
Theorem successful_response_is_the_envelope
  (w w' : World) (clock : ClaimsClock) (event : TokenIssuanceEvent)
  (creds : HTTPAuthorizationCredentials) (response : pyval) :
  custom_claims_provider clock event creds w = (Return response, w') ->
  exists claims,
    response
    = VDict [ ("data", VDict [ ("actions", VList [ VDict
        [ ("@odata.type",
           VStr "microsoft.graph.tokenIssuanceStart.provideClaimsForToken");
          ("claims", VDict claims) ] ]) ]) ]
    /\ Dict.lookup "apiVersion" claims = Some (VStr "1.0.0")
    /\ Dict.lookup "correlationId" claims = Some (VStr (event_correlationId event))
    /\ Dict.lookup "timestamp" claims = Some (VStr (utcnow_iso clock))
    /\ Dict.lookup "source" claims = Some (VStr "custom-claims-provider")
    /\ (Dict.lookup "storage_type" claims = Some (VStr "redis")
        \/ Dict.lookup "storage_type" claims = Some (VStr "memory"))
    /\ ((exists businessUnit deviceInfo customData dataAge,
           Dict.lookup "businessUnit" claims = Some businessUnit
           /\ Dict.lookup "deviceInfo" claims = Some deviceInfo
           /\ Dict.lookup "customData" claims = Some customData
           /\ Dict.lookup "dataSource" claims = Some (VStr "frontend")
           /\ Dict.lookup "dataAge" claims = Some (VNum dataAge))
        \/ (Dict.lookup "businessUnit" claims = Some (VStr "Default")
            /\ Dict.lookup "deviceInfo" claims = Some (VStr "Server-Generated")
            /\ Dict.lookup "customData" claims = Some (VStr "No frontend data available")
            /\ Dict.lookup "dataSource" claims = Some (VStr "default")
            /\ Dict.lookup "dataAge" claims = None)).
Proof.
  intros Hrun.
  pose proof (custom_claims_provider_outcome w clock event creds) as Hout.
  rewrite Hrun in Hout. simpl in Hout.
  inversion Hout as [backend Hb Heq | backend bu di cd age Hb Heq | ]; subst.
  - eexists. split; [reflexivity|].
    do 4 (split; [reflexivity|]).
    split; [destruct Hb as [-> | ->]; [now left | now right]|].
    right. repeat split.
  - eexists. split; [reflexivity|].
    do 4 (split; [reflexivity|]).
    split; [destruct Hb as [-> | ->]; [now left | now right]|].
    left. exists bu, di, cd, age. repeat split.
Qed.

Lemma successful_response_witness :
  exists claims,
    provide_claims (default_claims "memory" "corr-1" (utcnow_iso Sample.soon))
    = VDict [ ("data", VDict [ ("actions", VList [ VDict
        [ ("@odata.type",
           VStr "microsoft.graph.tokenIssuanceStart.provideClaimsForToken");
          ("claims", VDict claims) ] ]) ]) ]
    /\ Dict.lookup "apiVersion" claims = Some (VStr "1.0.0")
    /\ Dict.lookup "correlationId" claims = Some (VStr "corr-1")
    /\ Dict.lookup "timestamp" claims = Some (VStr (utcnow_iso Sample.soon))
    /\ Dict.lookup "source" claims = Some (VStr "custom-claims-provider")
    /\ (Dict.lookup "storage_type" claims = Some (VStr "redis")
        \/ Dict.lookup "storage_type" claims = Some (VStr "memory"))
    /\ ((exists businessUnit deviceInfo customData dataAge,
           Dict.lookup "businessUnit" claims = Some businessUnit
           /\ Dict.lookup "deviceInfo" claims = Some deviceInfo
           /\ Dict.lookup "customData" claims = Some customData
           /\ Dict.lookup "dataSource" claims = Some (VStr "frontend")
           /\ Dict.lookup "dataAge" claims = Some (VNum dataAge))
        \/ (Dict.lookup "businessUnit" claims = Some (VStr "Default")
            /\ Dict.lookup "deviceInfo" claims = Some (VStr "Server-Generated")
            /\ Dict.lookup "customData" claims = Some (VStr "No frontend data available")
            /\ Dict.lookup "dataSource" claims = Some (VStr "default")
            /\ Dict.lookup "dataAge" claims = None)).
Proof.
  apply (successful_response_is_the_envelope Sample.memory_world Sample.memory_world
           Sample.soon Sample.u1_event Sample.creds).
  reflexivity.
Defined.

(** ** The u1 scenario *)

(** C4: storing data for user u1 with businessUnit=Finance,
    deviceInfo=iPhone15 and customData omitted, then issuing claims half a
    second later for the principal name u1, on either backend: the claims
    carry businessUnit=Finance, deviceInfo=iPhone15, dataSource=frontend
    and a dataAge between 0 and 1, but customData is [None], not the empty
    string: the stored dict has the key with value [None], so the default
    of [.get("custom_data", "")] is never used. *)
Theorem u1_scenario_customData_is_None :
  forall w, In w [Sample.memory_world; Sample.redis_world] ->
  exists stored w1 claims w2 dataAge,
    store_frontend_data 1000 1000 Sample.u1_request w = (Return stored, w1)
    /\ custom_claims_provider Sample.soon Sample.u1_event Sample.creds w1
       = (Return (provide_claims claims), w2)
    /\ Dict.lookup "businessUnit" claims = Some (VStr "Finance")
    /\ Dict.lookup "deviceInfo" claims = Some (VStr "iPhone15")
    /\ Dict.lookup "dataSource" claims = Some (VStr "frontend")
    /\ Dict.lookup "dataAge" claims = Some (VNum dataAge)
    /\ (0 <= dataAge <= 1)%Q
    /\ Dict.lookup "customData" claims = Some VNone
    /\ Dict.lookup "customData" claims <> Some (VStr "").
Proof.
  intros w Hw.
  assert (H : healthy w).
  { destruct Hw as [<- | [<- | []]]; [exact I | reflexivity]. }
  set (w1 := put_record w "u1" (data_to_store Sample.u1_request 1000) 1000).
  exists (stored_response Sample.u1_request (storage_type (redis_client w))), w1.
  eexists. exists (drop_record w1 "u1"), (at_age Sample.soon - 1000)%Q.
  split; [now apply store_frontend_data_healthy|].
  split.
  { apply (claims_healthy_staged w1 Sample.soon Sample.u1_event Sample.creds
             Sample.u1_request 1000 1000).
    - now apply healthy_put.
    - apply staged_in_put.
    - reflexivity.
    - simpl. lra. }
  do 4 (split; [reflexivity|]).
  split; [simpl; lra|].
  split; [reflexivity | discriminate].
Qed.

Lemma u1_scenario_witness :
  exists stored w1 claims w2 dataAge,
    store_frontend_data 1000 1000 Sample.u1_request Sample.memory_world
    = (Return stored, w1)
    /\ custom_claims_provider Sample.soon Sample.u1_event Sample.creds w1
       = (Return (provide_claims claims), w2)
    /\ Dict.lookup "businessUnit" claims = Some (VStr "Finance")
    /\ Dict.lookup "deviceInfo" claims = Some (VStr "iPhone15")
    /\ Dict.lookup "dataSource" claims = Some (VStr "frontend")
    /\ Dict.lookup "dataAge" claims = Some (VNum dataAge)
    /\ (0 <= dataAge <= 1)%Q
    /\ Dict.lookup "customData" claims = Some VNone
    /\ Dict.lookup "customData" claims <> Some (VStr "").
Proof.
  apply (u1_scenario_customData_is_None Sample.memory_world). now left.
Defined.

(** ** A user mapping without a usable identifier *)

(** C10, the claim as stated fails: with an empty principal name and an
    empty id, neither field is truthy, yet the identifier is the empty
    string, not [None]; a record staged under the empty userId is found
    and the staged-data response is returned instead of the default one. *)
Lemma empty_id_finds_staged_record :
  let w1 := (store_frontend_data 1000 1000 Sample.blank_request Sample.memory_world).2 in
  truthy (Dict.get (event_user Sample.blank_event) "userPrincipalName" VNone) = false
  /\ truthy (Dict.get (event_user Sample.blank_event) "id" VNone) = false
  /\ user_id_of (event_user Sample.blank_event) = VStr ""
  /\ user_id_of (event_user Sample.blank_event) <> VNone
  /\ (get_data (at_get Sample.soon) (user_id_of (event_user Sample.blank_event)) w1).1
     <> Return VNone
  /\ (custom_claims_provider Sample.soon Sample.blank_event Sample.creds w1).1
     = Return (provide_claims
                 (frontend_claims "memory" "corr-1" (utcnow_iso Sample.soon)
                    (VStr "Finance") (VStr "iPhone15") VNone (at_age Sample.soon - 1000)))
  /\ (custom_claims_provider Sample.soon Sample.blank_event Sample.creds w1).1
     <> Return (provide_claims
                  (default_claims "memory" "corr-1" (utcnow_iso Sample.soon))).
Proof.
  assert (Hstore : store_frontend_data 1000 1000 Sample.blank_request Sample.memory_world
                   = (Return (stored_response Sample.blank_request "memory"),
                      put_record Sample.memory_world ""
                        (data_to_store Sample.blank_request 1000) 1000))
    by (now apply store_frontend_data_healthy).
  assert (Hclaims :
    custom_claims_provider Sample.soon Sample.blank_event Sample.creds
      (put_record Sample.memory_world "" (data_to_store Sample.blank_request 1000) 1000)
    = (Return (provide_claims
                 (frontend_claims "memory" "corr-1" (utcnow_iso Sample.soon)
                    (VStr "Finance") (VStr "iPhone15") VNone (at_age Sample.soon - 1000))),
       drop_record (put_record Sample.memory_world ""
                      (data_to_store Sample.blank_request 1000) 1000) "")).
  { assert (Hage : (at_get Sample.soon - 1000 < 300)%Q) by (simpl; lra).
    exact (claims_healthy_staged
             (put_record Sample.memory_world "" (data_to_store Sample.blank_request 1000) 1000)
             Sample.soon Sample.blank_event Sample.creds Sample.blank_request 1000 1000
             I (staged_in_put _ _ _ _) eq_refl Hage). }
  cbv zeta. rewrite Hstore. cbn [snd]. rewrite Hclaims. cbn [fst].
  split; [reflexivity|]. split; [reflexivity|]. split; [reflexivity|].
  split; [discriminate|].
  split.
  { change (user_id_of (event_user Sample.blank_event)) with (VStr "").
    rewrite (get_data_fallback_fresh
               (put_record Sample.memory_world "" (data_to_store Sample.blank_request 1000) 1000)
               "" eq_refl (at_get Sample.soon)
               (Dict.setitem "_timestamp" (VNum 1000) (data_to_store Sample.blank_request 1000))
               1000).
    - discriminate.
    - apply lookup_insert_eq.
    - reflexivity.
    - simpl. lra. }
  split; [reflexivity | discriminate].
Qed.

Lemma get_data_no_record w now key :
  (forall k, backend_key w key = Some k -> nothing_staged w k) ->
  exists w', get_data now key w = (Return VNone, w')
             /\ storage_type (redis_client w') = storage_type (redis_client w)
             /\ frontend_data_store w' = frontend_data_store w.
Proof.
  intros Hkey. destruct key as [| b | q | s | l | d].
  - apply get_data_None.
  - destruct (redis_client w) as [r|] eqn:Hred.
    + unfold get_data. run. rewrite Hred. simpl. unfold Redis.get, Redis.command.
      destruct (Redis.faults r) as [|[e|] fs]; simpl;
        eexists; (split; [reflexivity|]); simpl; auto.
    + exists w. unfold get_data. run. rewrite Hred. simpl. auto.
  - destruct (redis_client w) as [r|] eqn:Hred.
    + assert (Hk : Redis.db r !! Redis.repr_number r q = None).
      { specialize (Hkey (Redis.repr_number r q)).
        unfold backend_key, nothing_staged in Hkey. rewrite Hred in Hkey.
        now apply Hkey. }
      unfold get_data. run. rewrite Hred. simpl. unfold Redis.get, Redis.command.
      destruct (Redis.faults r) as [|[e|] fs]; simpl; rewrite ?Hk; simpl;
        eexists; (split; [reflexivity|]); simpl; auto.
    + exists w. unfold get_data. run. rewrite Hred. simpl. auto.
  - destruct (get_data_nothing_staged w now s (Hkey s eq_refl))
      as (w' & Hget & Hb & _ & Hst).
    eauto.
  - destruct (redis_client w) as [r|] eqn:Hred.
    + unfold get_data. run. rewrite Hred. simpl. unfold Redis.get, Redis.command.
      destruct (Redis.faults r) as [|[e|] fs]; simpl;
        eexists; (split; [reflexivity|]); simpl; auto.
    + exists w. unfold get_data. run. rewrite Hred. simpl. auto.
  - destruct (redis_client w) as [r|] eqn:Hred.
    + unfold get_data. run. rewrite Hred. simpl. unfold Redis.get, Redis.command.
      destruct (Redis.faults r) as [|[e|] fs]; simpl;
        eexists; (split; [reflexivity|]); simpl; auto.
    + exists w. unfold get_data. run. rewrite Hred. simpl. auto.
Qed.

(** C10, amended: when the user mapping has neither a truthy
    userPrincipalName nor a truthy id, the handler does not reject the
    request; it goes on with the value of the id field as the user
    identifier ([None] when id is missing or null), the lookup finds no
    record and the default-claims response is returned, unless a record
    is staged under the key that identifier denotes.  Only two falsy
    identifiers denote a key: the empty string, and on Redis a number
    equal to zero (by the text the client sends for it); for [None],
    [False], an empty list or mapping, and for a zero in fallback mode,
    the default-claims response is returned whatever is staged. *)
Theorem user_without_truthy_name_or_id
  (w : World) (clock : ClaimsClock) (event : TokenIssuanceEvent)
  (creds : HTTPAuthorizationCredentials) :
  truthy (Dict.get (event_user event) "userPrincipalName" VNone) = false ->
  truthy (Dict.get (event_user event) "id" VNone) = false ->
  user_id_of (event_user event) = Dict.get (event_user event) "id" VNone
  /\ ((forall k,
         backend_key w (Dict.get (event_user event) "id" VNone) = Some k ->
         nothing_staged w k) ->
      exists w',
        get_data (at_get clock) (Dict.get (event_user event) "id" VNone) w
        = (Return VNone, w')
        /\ custom_claims_provider clock event creds w
           = (Return (provide_claims
                        (default_claims (storage_type (redis_client w))
                           (event_correlationId event) (utcnow_iso clock))),
              w')
        /\ frontend_data_store w' = frontend_data_store w)
  /\ (forall k,
        backend_key w (Dict.get (event_user event) "id" VNone) = Some k ->
        (Dict.get (event_user event) "id" VNone = VStr "" /\ k = "")
        \/ (exists q r,
              Dict.get (event_user event) "id" VNone = VNum q /\ (q == 0)%Q
              /\ redis_client w = Some r /\ k = Redis.repr_number r q)).
Proof.
  intros Hname Hid.
  assert (Huid : user_id_of (event_user event) = Dict.get (event_user event) "id" VNone).
  { unfold user_id_of, py_or. now rewrite Hname. }
  split; [exact Huid|]. split.
  - intros Hkey.
    destruct (get_data_no_record w (at_get clock) _ Hkey) as (w' & Hget & Hb & Hst).
    exists w'. split; [exact Hget|]. split; [|exact Hst].
    rewrite <- Hb. apply claims_when_absent. now rewrite Huid.
  - intros k Hk.
    destruct (Dict.get (event_user event) "id" VNone) as [| b | q | s | l | d];
      simpl in Hk; try discriminate.
    + right. destruct (redis_client w) as [r|]; [|discriminate].
      inversion Hk; subst. exists q, r. repeat split.
      simpl in Hid. apply negb_false_iff in Hid. now apply Qeq_bool_iff.
    + left. inversion Hk; subst. simpl in Hid. apply negb_false_iff in Hid.
      apply String.eqb_eq in Hid. now subst.
Qed.

Lemma user_without_truthy_name_or_id_witness :
  (user_id_of (event_user Sample.anonymous_event) = VNone
   /\ exists w',
        get_data (at_get Sample.soon) VNone Sample.redis_world = (Return VNone, w')
        /\ custom_claims_provider Sample.soon Sample.anonymous_event Sample.creds
             Sample.redis_world
           = (Return (provide_claims
                        (default_claims "redis" "corr-1" (utcnow_iso Sample.soon))),
              w')
        /\ frontend_data_store w' = frontend_data_store Sample.redis_world)
  /\ (user_id_of (event_user Scenario.false_id_event) = VBool false
      /\ exists w',
           get_data (at_get Sample.soon) (VBool false) Scenario.two_users
           = (Return VNone, w')
           /\ custom_claims_provider Sample.soon Scenario.false_id_event Sample.creds
                Scenario.two_users
              = (Return (provide_claims
                           (default_claims "memory" "corr-1" (utcnow_iso Sample.soon))),
                 w')
           /\ frontend_data_store w' = frontend_data_store Scenario.two_users).
Proof.
  split.
  - pose proof (user_without_truthy_name_or_id Sample.redis_world Sample.soon
                  Sample.anonymous_event Sample.creds eq_refl eq_refl)
      as (Huid & Hdefault & _).
    split; [exact Huid|]. apply Hdefault. intros k Hk. discriminate.
  - pose proof (user_without_truthy_name_or_id Scenario.two_users Sample.soon
                  Scenario.false_id_event Sample.creds eq_refl eq_refl)
      as (Huid & Hdefault & _).
    split; [exact Huid|]. apply Hdefault. intros k Hk. discriminate.
Defined.

(** * Further properties of main.py *)

(** ** What a storage helper can change *)

Lemma kept_at_refl k w : kept_at k w w.
Proof. unfold kept_at. now destruct (redis_client w). Qed.

Lemma kept_at_trans k w1 w2 w3 :
  kept_at k w1 w2 -> kept_at k w2 w3 -> kept_at k w1 w3.
Proof.
  unfold kept_at. intros [H1 H1'] [H2 H2']. split; [congruence|].
  destruct (redis_client w1), (redis_client w2), (redis_client w3);
    try tauto; congruence.
Qed.

Lemma touches_only_refl k w : touches_only k w w.
Proof. intros k' _. apply kept_at_refl. Qed.

Lemma touches_only_trans k w1 w2 w3 :
  touches_only k w1 w2 -> touches_only k w2 w3 -> touches_only k w1 w3.
Proof. intros H1 H2 k' Hk. eapply kept_at_trans; eauto. Qed.

Lemma kept_at_staged k w w' record t :
  kept_at k w w' -> staged_in w k record t -> staged_in w' k record t.
Proof.
  unfold kept_at, staged_in. intros [H1 H2].
  destruct (redis_client w), (redis_client w'); try tauto; congruence.
Qed.

Lemma kept_at_nothing k w w' :
  kept_at k w w' -> nothing_staged w k -> nothing_staged w' k.
Proof.
  unfold kept_at, nothing_staged. intros [H1 H2].
  destruct (redis_client w), (redis_client w'); try tauto; congruence.
Qed.

Lemma kept_at_backend k w w' :
  kept_at k w w' -> storage_type (redis_client w') = storage_type (redis_client w).
Proof.
  unfold kept_at. intros [_ H].
  destruct (redis_client w), (redis_client w'); tauto.
Qed.

(** the states a lookup can leave: on Redis the data base is as it was, in
    the fallback store at most the looked-up key is gone *)
Lemma get_data_redis_state w r now key :
  redis_client w = Some r ->
  exists fs, (get_data now key w).2
             = mkWorld (Some (Redis.with_faults fs r)) (frontend_data_store w).
Proof.
  intros Hred. unfold get_data. run. rewrite Hred. simpl.
  unfold Redis.get, Redis.command.
  destruct (Redis.faults r) as [|[e|] fs] eqn:Hf; simpl.
  - exists []. unfold Redis.with_faults. rewrite <- Hf, server_eta.
    repeat case_match; simplify_eq; simpl; reflexivity.
  - exists fs. reflexivity.
  - exists fs. repeat case_match; simplify_eq; simpl; reflexivity.
Qed.

Lemma get_data_fallback_state w now key :
  redis_client w = None ->
  (get_data now key w).2 = w
  \/ exists k d, key = VStr k /\ frontend_data_store w !! k = Some d
                 /\ is_expired now d = Return true
                 /\ (get_data now key w).2
                    = mkWorld None (delete k (frontend_data_store w)).
Proof.
  intros Hmem. unfold get_data. run. rewrite Hmem. simpl.
  destruct key as [| b | q | k | l | d]; simpl; auto.
  destruct (frontend_data_store w !! k) as [d|] eqn:Hk; simpl; auto.
  destruct (negb (length d =? 0)%nat); simpl; auto.
  destruct (py_sub now (Dict.get d "_timestamp" (VNum 0))) as [age|e] eqn:Hsub;
    simpl; auto.
  destruct (Qgt_bool age 300) eqn:Hgt; simpl; auto.
  rewrite Hk, Hmem. right. exists k, d.
  unfold is_expired. rewrite Hsub, Hgt. auto.
Qed.

Lemma delete_data_redis_state w r now k :
  redis_client w = Some r ->
  exists r', (delete_data now (VStr k) w).2 = mkWorld (Some r') (frontend_data_store w)
             /\ forall k', k' <> k -> Redis.db r' !! k' = Redis.db r !! k'.
Proof.
  intros Hred. unfold delete_data. run. rewrite Hred. simpl.
  unfold Redis.delete, Redis.command.
  destruct (Redis.faults r) as [|[e|] fs] eqn:Hf; simpl;
    repeat case_match; simplify_eq; simpl;
    eexists; (split; [reflexivity|]); intros k' Hk'; simpl;
    rewrite ?lookup_delete_ne by congruence; reflexivity.
Qed.

Lemma delete_data_fallback_state w now key :
  redis_client w = None ->
  (delete_data now key w).2 = w
  \/ exists k, key = VStr k
               /\ (delete_data now key w).2
                  = mkWorld None (delete k (frontend_data_store w)).
Proof.
  intros Hmem. unfold delete_data. run. rewrite Hmem. simpl.
  destruct key as [| b | q | k | l | d]; simpl; rewrite ?Hmem;
    first [left; reflexivity | right; eauto].
Qed.

Lemma store_data_redis_state w r now k d expiration :
  redis_client w = Some r ->
  exists r', (store_data now k d expiration w).2 = mkWorld (Some r') (frontend_data_store w)
             /\ forall k', k' <> k -> Redis.db r' !! k' = Redis.db r !! k'.
Proof.
  intros Hred. unfold store_data. run. rewrite Hred. simpl.
  unfold Redis.setex, Redis.command.
  destruct (Redis.faults r) as [|[e|] fs] eqn:Hf; simpl;
    repeat case_match; simplify_eq; simpl;
    eexists; (split; [reflexivity|]); intros k' Hk'; simpl;
    rewrite ?lookup_insert_ne by congruence; reflexivity.
Qed.

Lemma shrinks_refl w : shrinks w w.
Proof. unfold shrinks. split; [reflexivity|]. now destruct (redis_client w). Qed.

Lemma shrinks_trans w1 w2 w3 : shrinks w1 w2 -> shrinks w2 w3 -> shrinks w1 w3.
Proof.
  unfold shrinks. intros [H1 H1'] [H2 H2']. split; [now transitivity (frontend_data_store w2)|].
  destruct (redis_client w1), (redis_client w2), (redis_client w3); try tauto.
  etransitivity; eauto.
Qed.

Lemma shrinks_backend w w' :
  shrinks w w' -> storage_type (redis_client w') = storage_type (redis_client w).
Proof.
  unfold shrinks. intros [_ H].
  destruct (redis_client w), (redis_client w'); tauto.
Qed.

Lemma well_stamped_subseteq (m m' : gmap string pydict) :
  m' ⊆ m -> well_stamped m -> well_stamped m'.
Proof. intros Hsub Hm k d Hk. apply (Hm k d). eapply lookup_weaken; eauto. Qed.

Lemma get_data_shrinks w now key : shrinks w (get_data now key w).2.
Proof.
  unfold shrinks. destruct (redis_client w) as [r|] eqn:Hred.
  - destruct (get_data_redis_state w r now key Hred) as (fs & ->). simpl.
    split; reflexivity.
  - destruct (get_data_fallback_state w now key Hred) as [-> | (k & d & _ & _ & _ & ->)].
    + rewrite Hred. split; [reflexivity | exact I].
    + simpl. split; [apply delete_subseteq | exact I].
Qed.

Lemma delete_data_redis_subseteq w r now key :
  redis_client w = Some r ->
  exists r', (delete_data now key w).2 = mkWorld (Some r') (frontend_data_store w)
             /\ Redis.db r' ⊆ Redis.db r.
Proof.
  intros Hred. unfold delete_data. run. rewrite Hred. simpl.
  unfold Redis.delete, Redis.command.
  destruct (Redis.faults r) as [|[e|] fs] eqn:Hf; simpl;
    repeat case_match; simplify_eq; simpl;
    eexists; (split; [reflexivity|]); simpl;
    try reflexivity; apply delete_subseteq.
Qed.

Lemma delete_data_shrinks w now key : shrinks w (delete_data now key w).2.
Proof.
  unfold shrinks. destruct (redis_client w) as [r|] eqn:Hred.
  - destruct (delete_data_redis_subseteq w r now key Hred) as (r' & -> & Hsub).
    simpl. split; [reflexivity | exact Hsub].
  - destruct (delete_data_fallback_state w now key Hred) as [-> | (k & _ & ->)].
    + rewrite Hred. split; [reflexivity | exact I].
    + simpl. split; [apply delete_subseteq | exact I].
Qed.

Lemma get_data_touches_only w now k : touches_only k w (get_data now (VStr k) w).2.
Proof.
  intros k' Hk'. unfold kept_at. destruct (redis_client w) as [r|] eqn:Hred.
  - destruct (get_data_redis_state w r now (VStr k) Hred) as (fs & ->). now simpl.
  - destruct (get_data_fallback_state w now (VStr k) Hred)
      as [-> | (k0 & d & Hkey & _ & _ & ->)].
    + now rewrite Hred.
    + simplify_eq. simpl. split; [now apply lookup_delete_ne | exact I].
Qed.

Lemma delete_data_touches_only w now k : touches_only k w (delete_data now (VStr k) w).2.
Proof.
  intros k' Hk'. unfold kept_at. destruct (redis_client w) as [r|] eqn:Hred.
  - destruct (delete_data_redis_state w r now k Hred) as (r' & -> & Hdb). simpl.
    split; [reflexivity | now apply Hdb].
  - destruct (delete_data_fallback_state w now (VStr k) Hred) as [-> | (k0 & Hkey & ->)].
    + now rewrite Hred.
    + simplify_eq. simpl. split; [now apply lookup_delete_ne | exact I].
Qed.

Lemma store_data_touches_only w now k d expiration :
  touches_only k w (store_data now k d expiration w).2.
Proof.
  intros k' Hk'. unfold kept_at. destruct (redis_client w) as [r|] eqn:Hred.
  - destruct (store_data_redis_state w r now k d expiration Hred) as (r' & -> & Hdb).
    simpl. split; [reflexivity | now apply Hdb].
  - rewrite (store_data_fallback w now k d expiration Hred). simpl.
    split; [now apply lookup_insert_ne | exact I].
Qed.

(** ** What each handler can change *)

Lemma store_frontend_data_state w t_request t_store fd :
  (store_frontend_data t_request t_store fd w).2
  = (store_data t_store (user_id fd) (data_to_store fd t_request) 300 w).2.
Proof.
  unfold store_frontend_data. run.
  destruct (store_data t_store (user_id fd) (data_to_store fd t_request) 300 w)
    as [[[|]|e] w']; reflexivity.
Qed.

Lemma custom_claims_provider_state w clock event creds :
  (custom_claims_provider clock event creds w).2
  = (get_data (at_get clock) (user_id_of (event_user event)) w).2
  \/ (custom_claims_provider clock event creds w).2
     = (delete_data (at_delete clock) (user_id_of (event_user event))
          (get_data (at_get clock) (user_id_of (event_user event)) w).2).2.
Proof.
  unfold custom_claims_provider, event_user. run.
  destruct (get_data (at_get clock)
              (user_id_of (user (authenticationContext (data event)))) w)
    as [[v|e] w1]; simpl; auto.
  destruct (truthy v); simpl; auto.
  destruct v as [| b | q | s | l | d]; simpl; auto.
  destruct (py_sub (at_age clock) (Dict.get d "timestamp" (VNum (at_age_default clock))))
    as [age|e]; simpl; auto.
  right.
  destruct (delete_data (at_delete clock)
              (user_id_of (user (authenticationContext (data event)))) w1)
    as [[b|e] w2]; reflexivity.
Qed.

Lemma custom_claims_provider_shrinks w clock event creds :
  shrinks w (custom_claims_provider clock event creds w).2.
Proof.
  destruct (custom_claims_provider_state w clock event creds) as [-> | ->].
  - apply get_data_shrinks.
  - eapply shrinks_trans; [apply get_data_shrinks | apply delete_data_shrinks].
Qed.

(** ** The sweep of expired entries *)

Lemma is_expired_stamped now d ts :
  Dict.lookup "_timestamp" d = Some (VNum ts) ->
  is_expired now d = Return (Qgt_bool (now - ts) 300).
Proof. intros H. unfold is_expired, Dict.get. now rewrite H. Qed.

Lemma expired_keys_of_stale now items ks :
  expired_keys_of now items = Return ks ->
  ks = (filter (fun kv => Is_true (stale now kv.2)) items).*1.
Proof.
  revert ks. induction items as [|[k d] items IH]; intros ks H.
  - now inversion H.
  - cbn [expired_keys_of] in H.
    destruct (is_expired now d) as [b|e] eqn:Hd; [|discriminate].
    destruct (expired_keys_of now items) as [ks'|e]; [|discriminate].
    inversion H; subst.
    assert (Hst : stale now d = b) by (unfold stale; now rewrite Hd).
    destruct b.
    + rewrite filter_cons_True by (simpl; now rewrite Hst).
      simpl. f_equal. now apply IH.
    + rewrite filter_cons_False by (simpl; now rewrite Hst).
      now apply IH.
Qed.

Lemma expired_keys_of_stamped now items :
  (forall kv, kv ∈ items -> exists ts, Dict.lookup "_timestamp" kv.2 = Some (VNum ts)) ->
  exists ks, expired_keys_of now items = Return ks.
Proof.
  induction items as [|[k d] items IH]; intros H; [now exists []|].
  destruct (H (k, d)) as [ts Hts]; [left|].
  destruct IH as [ks Hks]; [intros kv Hkv; apply H; now right|].
  cbn [expired_keys_of]. simpl in Hts. rewrite (is_expired_stamped _ _ _ Hts), Hks.
  eauto.
Qed.

Section Sweep.
Context (now : Q) (m : gmap string pydict) (ks : list string).
Hypothesis Hks : expired_keys_of now (map_to_list m) = Return ks.

Lemma expired_key_iff k :
  k ∈ ks <-> exists d, m !! k = Some d /\ stale now d = true.
Proof.
  rewrite (expired_keys_of_stale _ _ _ Hks). rewrite list_elem_of_fmap. split.
  - intros ([k' d] & -> & Hin). apply list_elem_of_filter in Hin as [Hst Hin].
    apply elem_of_map_to_list in Hin. exists d. split; [exact Hin|].
    simpl in Hst. now apply Is_true_true.
  - intros (d & Hk & Hst). exists (k, d). split; [reflexivity|].
    apply list_elem_of_filter. split; [simpl; now apply Is_true_true|].
    now apply elem_of_map_to_list.
Qed.

Lemma expired_keys_NoDup : NoDup ks.
Proof.
  rewrite (expired_keys_of_stale _ _ _ Hks).
  apply (sublist_NoDup _ ((map_to_list m).*1)).
  - apply NoDup_fst_map_to_list.
  - apply fmap_sublist, sublist_filter.
Qed.

End Sweep.

Lemma lookup_foldl_delete (ks : list string) (m : gmap string pydict) k :
  foldl (fun m k => delete k m) m ks !! k = if decide (k ∈ ks) then None else m !! k.
Proof.
  revert m. induction ks as [|a ks IH]; intros m.
  - destruct (decide (k ∈ [])) as [H|_]; [now apply elem_of_nil in H | reflexivity].
  - cbn [foldl]. rewrite IH.
    destruct (decide (k ∈ ks)) as [Hin|Hin], (decide (k ∈ a :: ks)) as [Hin'|Hin'].
    + reflexivity.
    + exfalso. apply Hin'. now right.
    + apply elem_of_cons in Hin' as [->|?]; [apply lookup_delete_eq | contradiction].
    + apply lookup_delete_ne. intros ->. apply Hin'. left.
Qed.

Lemma size_foldl_delete (ks : list string) (m : gmap string pydict) :
  NoDup ks -> (forall k, k ∈ ks -> is_Some (m !! k)) ->
  size (foldl (fun m k => delete k m) m ks) + length ks = size m.
Proof.
  revert m. induction ks as [|a ks IH]; intros m Hnd Hin; simpl; [lia|].
  apply NoDup_cons in Hnd as [Ha Hnd].
  assert (Hrest : forall k, k ∈ ks -> is_Some (delete a m !! k)).
  { intros k Hk. rewrite lookup_delete_ne; [apply Hin; now right|].
    intros ->. contradiction. }
  pose proof (IH (delete a m) Hnd Hrest) as Hsize.
  rewrite map_size_delete_Some in Hsize by (apply Hin; left).
  destruct (Hin a) as [d Hd]; [left|].
  assert (size m <> 0).
  { intros H0. apply map_size_empty_inv in H0. subst. now rewrite lookup_empty in Hd. }
  lia.
Qed.

Lemma for_each_delitem ks : forall w,
  NoDup ks -> (forall k, k ∈ ks -> is_Some (frontend_data_store w !! k)) ->
  for_each ks (fun key => store_delitem (VStr key)) w
  = (Return tt,
     mkWorld (redis_client w) (foldl (fun m k => delete k m) (frontend_data_store w) ks)).
Proof.
  induction ks as [|a ks IH]; intros w Hnd Hin; simpl.
  - unfold ret. now rewrite world_eta.
  - apply NoDup_cons in Hnd as [Ha Hnd].
    destruct (Hin a) as [d Hd]; [left|].
    unfold bind at 1. unfold store_delitem at 1. simpl. rewrite Hd.
    rewrite IH; [reflexivity | exact Hnd |].
    intros k Hk. simpl. rewrite lookup_delete_ne; [apply Hin; now right|].
    intros ->. contradiction.
Qed.

(** the sweep, whenever the tests of all entries go through: it returns
    the keys of the stale entries and leaves exactly the others *)
Lemma sweep_expired_spec w now ks :
  expired_keys_of now (map_to_list (frontend_data_store w)) = Return ks ->
  sweep_expired now w
  = (Return ks, mkWorld (redis_client w) (fresh_entries now (frontend_data_store w)))
  /\ size (fresh_entries now (frontend_data_store w)) + length ks
     = size (frontend_data_store w).
Proof.
  intros Hks.
  pose proof (expired_keys_NoDup now _ ks Hks) as Hnd.
  assert (Hin : forall k, k ∈ ks -> is_Some (frontend_data_store w !! k)).
  { intros k Hk. apply (expired_key_iff now _ ks Hks) in Hk as (d & Hd & _). eauto. }
  assert (Heq : foldl (fun m k => delete k m) (frontend_data_store w) ks
                = fresh_entries now (frontend_data_store w)).
  { apply map_eq. intros k. rewrite lookup_foldl_delete. unfold fresh_entries.
    destruct (decide (k ∈ ks)) as [Hk|Hk].
    - symmetry. apply map_lookup_filter_None. right. intros d Hd. simpl.
      apply (expired_key_iff now _ ks Hks) in Hk as (d' & Hd' & Hst). congruence.
    - destruct (frontend_data_store w !! k) as [d|] eqn:Hd.
      + symmetry. apply map_lookup_filter_Some. split; [exact Hd|]. simpl.
        destruct (stale now d) eqn:Hst; [|reflexivity].
        exfalso. apply Hk. apply (expired_key_iff now _ ks Hks). eauto.
      + symmetry. apply map_lookup_filter_None. now left. }
  split.
  - unfold sweep_expired, store_items. unfold bind at 1. simpl.
    unfold lift, bind at 1. rewrite Hks. unfold bind, ret.
    rewrite (for_each_delitem ks w Hnd Hin). now rewrite Heq.
  - rewrite <- Heq. now apply size_foldl_delete.
Qed.

Lemma for_each_delitem_shrinks ks : forall w,
  shrinks w (for_each ks (fun key => store_delitem (VStr key)) w).2.
Proof.
  induction ks as [|a ks IH]; intros w; simpl; [apply shrinks_refl|].
  unfold bind at 1. unfold store_delitem at 1. simpl.
  destruct (frontend_data_store w !! a) as [d|]; simpl; [|apply shrinks_refl].
  eapply shrinks_trans; [|apply IH].
  unfold shrinks. simpl. split; [apply delete_subseteq|].
  now destruct (redis_client w).
Qed.

Lemma sweep_expired_shrinks w now : shrinks w (sweep_expired now w).2.
Proof.
  unfold sweep_expired, store_items. unfold bind at 1. simpl. unfold lift, bind at 1.
  destruct (expired_keys_of now (map_to_list (frontend_data_store w))) as [ks|e];
    [|apply shrinks_refl].
  unfold bind, ret.
  pose proof (for_each_delitem_shrinks ks w) as H.
  destruct (for_each ks (fun key => store_delitem (VStr key)) w) as [[[]|e] w']; exact H.
Qed.

(** ** The store handler *)

(** X1: POST /api/store-frontend-data answers with the success body or
    with HTTPException 500, nothing else.  On a healthy backend it returns
    the success body (expires_in 300, the backend's name) and the backend
    then holds the record under the user_id.  When the Redis command
    raises, the handler raises HTTPException 500 and the service does not
    fall back at run time: Redis stays the active backend and the
    in-process store is left as it was. *)
Theorem store_succeeds_or_raises_500
  (w : World) (fd : FrontendData) (t_request t_store : Q) :
  (healthy w ->
   exists w1,
     store_frontend_data t_request t_store fd w
     = (Return (VDict [ ("success", VBool true);
                        ("message", VStr "Data stored successfully");
                        ("user_id", VStr (user_id fd));
                        ("expires_in", VNum 300);
                        ("storage_type", VStr (storage_type (redis_client w))) ]),
        w1)
     /\ staged_in w1 (user_id fd) (data_to_store fd t_request) t_store)
  /\ (forall r e fs,
        redis_client w = Some r -> Redis.faults r = Some e :: fs ->
        exists detail w',
          store_frontend_data t_request t_store fd w
          = (Raise (HTTPException 500 detail), w')
          /\ storage_type (redis_client w') = "redis"
          /\ frontend_data_store w' = frontend_data_store w).
Proof.
  split.
  - intros H. eexists. split; [now apply store_frontend_data_healthy|].
    apply staged_in_put.
  - intros r e fs Hred Hf. unfold store_frontend_data. run.
    rewrite (store_data_fault w r e fs Hred Hf). simpl. eauto.
Qed.

Lemma store_succeeds_or_raises_500_witness :
  (exists w1,
     store_frontend_data 1000 1000 Sample.u1_request Sample.redis_world
     = (Return (VDict [ ("success", VBool true);
                        ("message", VStr "Data stored successfully");
                        ("user_id", VStr "u1");
                        ("expires_in", VNum 300);
                        ("storage_type", VStr "redis") ]),
        w1)
     /\ staged_in w1 "u1" (data_to_store Sample.u1_request 1000) 1000)
  /\ (exists detail w',
        store_frontend_data 1300 1300 Sample.u1_again
          (Scenario.redis_with_u1 [Some Scenario.refused])
        = (Raise (HTTPException 500 detail), w')
        /\ storage_type (redis_client w') = "redis"
        /\ frontend_data_store w' = ∅).
Proof.
  split.
  - apply (proj1 (store_succeeds_or_raises_500 Sample.redis_world
                    Sample.u1_request 1000 1000)).
    reflexivity.
  - exact (proj2 (store_succeeds_or_raises_500
                    (Scenario.redis_with_u1 [Some Scenario.refused])
                    Sample.u1_again 1300 1300)
             (Redis.Server
                {[ "u1" := Redis.Entry
                             (json_dumps (VDict (data_to_store Sample.u1_request 1000)))
                             (1000 + inject_Z 300) ]}
                [Some Scenario.refused] (fun _ => "0"))
             Scenario.refused [] eq_refl eq_refl).
Defined.

(** X2: staging for one user leaves every other user's record alone:
    whatever the Redis connection does, both backends hold under any
    other key exactly what they held before, so a record staged for
    another user is still staged. *)
Theorem store_touches_only_its_user
  (w : World) (fd : FrontendData) (t_request t_store : Q)
  (k' : string) (record : pydict) (t : Q) :
  k' <> user_id fd ->
  kept_at k' w (store_frontend_data t_request t_store fd w).2
  /\ (staged_in w k' record t ->
      staged_in (store_frontend_data t_request t_store fd w).2 k' record t)
  /\ (nothing_staged w k' ->
      nothing_staged (store_frontend_data t_request t_store fd w).2 k').
Proof.
  intros Hk.
  assert (H : kept_at k' w (store_frontend_data t_request t_store fd w).2).
  { rewrite store_frontend_data_state. now apply store_data_touches_only. }
  split; [exact H|]. split.
  - now apply kept_at_staged.
  - now apply kept_at_nothing.
Qed.

Lemma store_touches_only_its_user_witness :
  staged_in (store_frontend_data 1300 1300
               (mkFrontendData "u2" "Sales" "Pixel8" None 0)
               (Scenario.redis_with_u1 [])).2
    "u1" (data_to_store Sample.u1_request 1000) 1000.
Proof.
  apply (store_touches_only_its_user (Scenario.redis_with_u1 [])
           (mkFrontendData "u2" "Sales" "Pixel8" None 0) 1300 1300 "u1"
           (data_to_store Sample.u1_request 1000) 1000).
  - discriminate.
  - apply lookup_insert_eq.
Defined.

(** ** Issue-claims and other users *)

(** X3: issuing claims for the user identifier k consumes at most the
    record of k: whatever the outcome and whatever the Redis connection
    does, both backends hold under any other key exactly what they held
    before. *)
Theorem claims_touch_only_their_user
  (w : World) (clock : ClaimsClock) (event : TokenIssuanceEvent)
  (creds : HTTPAuthorizationCredentials) (k k' : string) (record : pydict) (t : Q) :
  user_id_of (event_user event) = VStr k ->
  k' <> k ->
  kept_at k' w (custom_claims_provider clock event creds w).2
  /\ (staged_in w k' record t ->
      staged_in (custom_claims_provider clock event creds w).2 k' record t).
Proof.
  intros Huid Hk.
  assert (H : touches_only k w (custom_claims_provider clock event creds w).2).
  { destruct (custom_claims_provider_state w clock event creds) as [-> | ->];
      rewrite Huid.
    - apply get_data_touches_only.
    - eapply touches_only_trans;
        [apply get_data_touches_only | apply delete_data_touches_only]. }
  split; [now apply H|]. apply kept_at_staged. now apply H.
Qed.

Lemma claims_touch_only_their_user_witness :
  staged_in (custom_claims_provider Sample.soon Scenario.u2_event Sample.creds
               (Scenario.redis_with_u1 [])).2
    "u1" (data_to_store Sample.u1_request 1000) 1000.
Proof.
  apply (claims_touch_only_their_user (Scenario.redis_with_u1 []) Sample.soon
           Scenario.u2_event Sample.creds "u2" "u1"
           (data_to_store Sample.u1_request 1000) 1000).
  - reflexivity.
  - discriminate.
  - apply lookup_insert_eq.
Defined.

(** ** Issue-claims when a Redis command fails *)

Lemma get_data_redis_expired w r now k e :
  redis_client w = Some r -> Redis.faults r = [] ->
  Redis.db r !! k = Some e ->
  (Redis.expire_at e <= now)%Q ->
  get_data now (VStr k) w = (Return VNone, w).
Proof.
  intros Hred Hok Hk Hexp. unfold get_data. run. rewrite Hred. simpl.
  unfold Redis.get. rewrite (command_healthy _ _ Hok). simpl. rewrite Hk.
  unfold Redis.live. apply Qle_bool_iff in Hexp. rewrite Hexp. simpl.
  rewrite <- Hred. now rewrite world_eta.
Qed.


(** X4: when the Redis GET of an issue-claims call fails, the call
    answers with the default claims and consumes nothing: the staged
    record is still there, and the next call on the recovered connection
    within the window returns its fields and only then deletes it. *)
Theorem failed_lookup_consumes_nothing
  (w : World) (r : Redis.server) (e : exn) (fd : FrontendData)
  (t_request t_store : Q) (clock clock' : ClaimsClock)
  (event : TokenIssuanceEvent) (creds : HTTPAuthorizationCredentials) :
  redis_client w = Some r ->
  Redis.faults r = [Some e] ->
  staged_in w (user_id fd) (data_to_store fd t_request) t_store ->
  user_id_of (event_user event) = VStr (user_id fd) ->
  (at_get clock' - t_store < 300)%Q ->
  exists w1 w2,
    custom_claims_provider clock event creds w
    = (Return (provide_claims
                 (default_claims "redis" (event_correlationId event) (utcnow_iso clock))),
       w1)
    /\ staged_in w1 (user_id fd) (data_to_store fd t_request) t_store
    /\ custom_claims_provider clock' event creds w1
       = (Return (provide_claims
                    (frontend_claims "redis" (event_correlationId event)
                       (utcnow_iso clock')
                       (VStr (business_unit fd)) (VStr (device_info fd))
                       (of_optional_str (custom_data fd))
                       (at_age clock' - t_request))),
          w2)
    /\ nothing_staged w2 (user_id fd).
Proof.
  intros Hred Hf Hst Huid Hage.
  set (w1 := mkWorld (Some (Redis.with_faults [] r)) (frontend_data_store w)).
  assert (Hst1 : staged_in w1 (user_id fd) (data_to_store fd t_request) t_store).
  { unfold staged_in in *. rewrite Hred in Hst. exact Hst. }
  exists w1, (drop_record w1 (user_id fd)).
  split.
  { apply (claims_when_absent clock event creds w w1).
    rewrite Huid. apply (get_data_fault w r e [] Hred Hf). }
  split; [exact Hst1|]. split.
  - apply (claims_healthy_staged w1 clock' event creds fd t_request t_store);
      [reflexivity | exact Hst1 | exact Huid | exact Hage].
  - apply nothing_staged_drop.
Qed.

Lemma failed_lookup_consumes_nothing_witness :
  exists w1 w2,
    custom_claims_provider Sample.soon Sample.u1_event Sample.creds
      (Scenario.redis_with_u1 [Some Scenario.timeout])
    = (Return (provide_claims
                 (default_claims "redis" "corr-1" (utcnow_iso Sample.soon))),
       w1)
    /\ staged_in w1 "u1" (data_to_store Sample.u1_request 1000) 1000
    /\ custom_claims_provider Sample.later Sample.u1_event Sample.creds w1
       = (Return (provide_claims
                    (frontend_claims "redis" "corr-1" (utcnow_iso Sample.later)
                       (VStr "Finance") (VStr "iPhone15") VNone
                       (at_age Sample.later - 1000))),
          w2)
    /\ nothing_staged w2 "u1".
Proof.
  refine (failed_lookup_consumes_nothing
            (Scenario.redis_with_u1 [Some Scenario.timeout]) _ Scenario.timeout
            Sample.u1_request 1000 1000 Sample.soon Sample.later
            Sample.u1_event Sample.creds eq_refl eq_refl _ eq_refl _).
  - apply lookup_insert_eq.
  - simpl. lra.
Defined.



(** ** Issue-claims after the window, and with other identifiers *)

(** X6: a record that was stored more than 300 seconds before the lookup
    is not served by issue-claims on either backend: the call answers
    with the default claims; in the fallback store the lookup also
    removes the record, on Redis the call changes nothing. *)
Theorem stale_record_gives_default_claims
  (w : World) (clock : ClaimsClock) (event : TokenIssuanceEvent)
  (creds : HTTPAuthorizationCredentials) (k : string) (record : pydict) (t_store : Q) :
  healthy w ->
  staged_in w k record t_store ->
  user_id_of (event_user event) = VStr k ->
  (300 < at_get clock - t_store)%Q ->
  exists w',
    custom_claims_provider clock event creds w
    = (Return (provide_claims
                 (default_claims (storage_type (redis_client w))
                    (event_correlationId event) (utcnow_iso clock))),
       w')
    /\ match redis_client w with
       | Some _ => w' = w
       | None => w' = mkWorld None (delete k (frontend_data_store w))
       end.
Proof.
  unfold healthy, staged_in. intros H Hst Huid Hage.
  destruct (redis_client w) as [r|] eqn:Hred.
  - exists w. split; [|reflexivity].
    replace (storage_type (Some r)) with (storage_type (redis_client w))
      by now rewrite Hred.
    apply claims_when_absent. rewrite Huid.
    apply (get_data_redis_expired w r _ k _ Hred H Hst). simpl.
    change (inject_Z 300) with 300%Q. lra.
  - eexists. split; [|reflexivity].
    apply (claims_when_absent clock event creds w
             (mkWorld None (delete k (frontend_data_store w)))).
    rewrite Huid.
    apply (get_data_fallback_expired w k Hred (at_get clock) _ t_store Hst);
      [apply timestamp_of_stamped | exact Hage].
Qed.

Lemma stale_record_gives_default_claims_witness :
  exists w',
    custom_claims_provider (mkClaimsClock 1300.5 "2023-11-14T22:18:20" 1300.5 1300.5 1300.5)
      Sample.u1_event Sample.creds (Scenario.redis_with_u1 [])
    = (Return (provide_claims (default_claims "redis" "corr-1" "2023-11-14T22:18:20")),
       w')
    /\ w' = Scenario.redis_with_u1 [].
Proof.
  refine (stale_record_gives_default_claims (Scenario.redis_with_u1 [])
            (mkClaimsClock 1300.5 "2023-11-14T22:18:20" 1300.5 1300.5 1300.5)
            Sample.u1_event Sample.creds "u1"
            (data_to_store Sample.u1_request 1000) 1000 eq_refl _ eq_refl _).
  - apply lookup_insert_eq.
  - simpl. lra.
Defined.

(** X7: a non-empty userPrincipalName is the lookup key whatever the id
    field holds: a record staged under another key, the id included, is
    neither served nor consumed, and with nothing staged under the
    principal name the call answers with the default claims. *)
Theorem principal_name_is_the_key
  (w : World) (clock : ClaimsClock) (event : TokenIssuanceEvent)
  (creds : HTTPAuthorizationCredentials) (upn k' : string) (record : pydict) (t : Q) :
  Dict.get (event_user event) "userPrincipalName" VNone = VStr upn ->
  upn <> "" ->
  user_id_of (event_user event) = VStr upn
  /\ (k' <> upn -> nothing_staged w upn -> staged_in w k' record t ->
      exists w',
        custom_claims_provider clock event creds w
        = (Return (provide_claims
                     (default_claims (storage_type (redis_client w))
                        (event_correlationId event) (utcnow_iso clock))),
           w')
        /\ staged_in w' k' record t).
Proof.
  intros Hname Hne.
  assert (Huid : user_id_of (event_user event) = VStr upn).
  { unfold user_id_of, py_or. rewrite Hname. simpl.
    apply String.eqb_neq in Hne. now rewrite Hne. }
  split; [exact Huid|].
  intros Hk Hnone Hst.
  destruct (get_data_nothing_staged w (at_get clock) upn Hnone)
    as (w' & Hget & Hb & _ & _).
  exists w'. split.
  - rewrite <- Hb. apply claims_when_absent. now rewrite Huid.
  - apply (kept_at_staged k' w w'); [|exact Hst].
    replace w' with (get_data (at_get clock) (VStr upn) w).2 by now rewrite Hget.
    now apply get_data_touches_only.
Qed.

Lemma principal_name_is_the_key_witness :
  user_id_of (event_user Scenario.named_event) = VStr "u2"
  /\ exists w',
       custom_claims_provider Sample.soon Scenario.named_event Sample.creds
         (Scenario.redis_with_u1 [])
       = (Return (provide_claims
                    (default_claims "redis" "corr-1" (utcnow_iso Sample.soon))),
          w')
       /\ staged_in w' "u1" (data_to_store Sample.u1_request 1000) 1000.
Proof.
  pose proof (principal_name_is_the_key (Scenario.redis_with_u1 []) Sample.soon
                Scenario.named_event Sample.creds "u2" "u1"
                (data_to_store Sample.u1_request 1000) 1000 eq_refl)
    as H.
  destruct H as [Huid Hrest]; [discriminate|].
  split; [exact Huid|]. apply Hrest.
  - discriminate.
  - reflexivity.
  - apply lookup_insert_eq.
Defined.

Lemma get_data_unusable w now key :
  unusable_key key ->
  exists w', get_data now key w = (Return VNone, w')
             /\ storage_type (redis_client w') = storage_type (redis_client w)
             /\ forall k, kept_at k w w'.
Proof.
  intros Hkey. destruct (redis_client w) as [r|] eqn:Hred.
  - unfold get_data. run. rewrite Hred. simpl. unfold Redis.get, Redis.command.
    destruct (Redis.faults r) as [|[e|] fs] eqn:Hf;
      destruct key; try contradiction; simpl;
      eexists; (split; [reflexivity|]); (split; [reflexivity|]);
      intros k; unfold kept_at; rewrite Hred; simpl; auto.
  - exists w. unfold get_data. run. rewrite Hred.
    destruct key; try contradiction; simpl;
      (split; [reflexivity|]); (split; [reflexivity|]);
      intros k; apply kept_at_refl.
Qed.

(** X8: when the user identifier taken from the event is neither a string
    nor a number (a list or mapping given as id, a boolean, or no
    identifier at all), the lookup error is swallowed: the call answers
    with the default claims and no record of either backend is touched. *)
Theorem unusable_identifier_gets_default_claims
  (w : World) (clock : ClaimsClock) (event : TokenIssuanceEvent)
  (creds : HTTPAuthorizationCredentials) :
  unusable_key (user_id_of (event_user event)) ->
  exists w',
    custom_claims_provider clock event creds w
    = (Return (provide_claims
                 (default_claims (storage_type (redis_client w))
                    (event_correlationId event) (utcnow_iso clock))),
       w')
    /\ forall k, kept_at k w w'.
Proof.
  intros Hkey.
  destruct (get_data_unusable w (at_get clock) _ Hkey) as (w' & Hget & Hb & Hkept).
  exists w'. split; [|exact Hkept].
  rewrite <- Hb. now apply claims_when_absent.
Qed.

Lemma unusable_identifier_witness :
  exists w',
    custom_claims_provider Sample.soon Scenario.list_id_event Sample.creds
      Scenario.two_users
    = (Return (provide_claims
                 (default_claims "memory" "corr-1" (utcnow_iso Sample.soon))),
       w')
    /\ forall k, kept_at k Scenario.two_users w'.
Proof.
  apply (unusable_identifier_gets_default_claims Scenario.two_users Sample.soon
           Scenario.list_id_event Sample.creds).
  exact I.
Defined.

(** ** Endpoints that only read *)

Lemma shrinking_ret {A} (a : A) : shrinking (ret a).
Proof. intros w. apply shrinks_refl. Qed.

Lemma shrinking_raise {A} (e : exn) : shrinking (@raise A e).
Proof. intros w. apply shrinks_refl. Qed.

Lemma shrinking_lift {A} (r : result A) : shrinking (lift r).
Proof. intros w. apply shrinks_refl. Qed.

Lemma shrinks_bind {A B} (m : M A) (k : A -> M B) w :
  shrinks w (m w).2 -> (forall a, shrinking (k a)) -> shrinks w (bind m k w).2.
Proof.
  intros Hm Hk. unfold bind. destruct (m w) as [[a|e] w1]; simpl in *; [|exact Hm].
  eapply shrinks_trans; [exact Hm | apply Hk].
Qed.

Lemma shrinking_bind {A B} (m : M A) (k : A -> M B) :
  shrinking m -> (forall a, shrinking (k a)) -> shrinking (bind m k).
Proof. intros Hm Hk w. apply shrinks_bind; auto. Qed.

Lemma shrinking_try_except {A} (body : M A) (handler : exn -> M A) :
  shrinking body -> (forall e, shrinking (handler e)) ->
  shrinking (try_except body handler).
Proof.
  intros Hb Hh w. unfold try_except. specialize (Hb w).
  destruct (body w) as [[a|e] w1]; simpl in *; [exact Hb|].
  eapply shrinks_trans; [exact Hb | apply Hh].
Qed.

Lemma read_only_command {A} (op : Redis.server -> result A * Redis.server) :
  (forall r, Redis.db (op r).2 = Redis.db r) -> read_only (Redis.command op).
Proof.
  intros Hop r. unfold Redis.command.
  destruct (Redis.faults r) as [|[e|] fs]; simpl; [apply Hop | reflexivity |].
  now rewrite Hop.
Qed.

Lemma read_only_get now key : read_only (Redis.get now key).
Proof.
  apply read_only_command. intros r.
  destruct (Redis.encode r key); simpl; [|reflexivity].
  now destruct (Redis.db r !! a).
Qed.

Lemma read_only_keys now : read_only (redis_keys now).
Proof. now apply read_only_command. Qed.

Lemma read_only_info reply : read_only (redis_info reply).
Proof. now apply read_only_command. Qed.

Lemma shrinking_redis_do {A} (cmd : Redis.server -> result A * Redis.server) :
  read_only cmd -> shrinking (redis_do cmd).
Proof.
  intros Hcmd w. unfold redis_do, bind, read_redis_client, on_redis, raise. simpl.
  destruct (redis_client w) as [r|] eqn:Hred; [|apply shrinks_refl].
  specialize (Hcmd r). destruct (cmd r) as [a r']. simpl in *.
  unfold shrinks. simpl. rewrite Hred, Hcmd. split; reflexivity.
Qed.

Lemma shrinking_sweep now : shrinking (sweep_expired now).
Proof. intros w. apply sweep_expired_shrinks. Qed.

Lemma shrinking_dump_redis at_get keys : forall i stored_data,
  shrinking (dump_redis at_get i keys stored_data).
Proof.
  induction keys as [|key keys IH]; intros i stored_data; cbn [dump_redis].
  - apply shrinking_ret.
  - apply shrinking_bind; [apply shrinking_redis_do, read_only_get|].
    intros data. apply shrinking_bind; [|intros sd; apply IH].
    destruct data as [s|]; [|apply shrinking_ret].
    destruct (text_truthy s); [|apply shrinking_ret].
    apply shrinking_try_except.
    + apply shrinking_bind; [apply shrinking_lift | intros v; apply shrinking_ret].
    + intros e. destruct e; try apply shrinking_raise.
      apply shrinking_bind; [apply shrinking_lift | intros v; apply shrinking_ret].
Qed.

(** the same commands as [redis_do], written as the handlers write them *)
Lemma redis_do_eq {A} (cmd : Redis.server -> result A * Redis.server) w r :
  redis_client w = Some r -> on_redis r cmd w = redis_do cmd w.
Proof.
  intros Hred. unfold redis_do, bind, read_redis_client. simpl. now rewrite Hred.
Qed.

Lemma shrinking_get_storage_stats now info : shrinking (get_storage_stats now info).
Proof.
  unfold get_storage_stats. apply shrinking_try_except; [|intros e; apply shrinking_ret].
  intros w. unfold bind at 1. unfold read_redis_client. simpl.
  destruct (redis_client w) as [r|] eqn:Hred.
  - apply shrinks_bind; [|intros a; apply shrinking_ret].
    rewrite (redis_do_eq _ w r Hred). apply shrinking_redis_do, read_only_info.
  - apply shrinks_bind; [apply shrinking_sweep|].
    intros ks. apply shrinking_bind; [|intros n; apply shrinking_ret].
    intros w1. apply shrinks_refl.
Qed.

Lemma shrinking_health_check config now info utcnow :
  shrinking (health_check config now info utcnow).
Proof.
  unfold health_check. apply shrinking_bind;
    [apply shrinking_get_storage_stats | intros a; apply shrinking_ret].
Qed.

Lemma shrinking_debug_stored_data now at_get info :
  shrinking (debug_stored_data now at_get info).
Proof.
  unfold debug_stored_data. apply shrinking_try_except; [|intros e; apply shrinking_ret].
  intros w. unfold bind at 1. unfold read_redis_client. simpl.
  destruct (redis_client w) as [r|] eqn:Hred.
  - apply shrinks_bind.
    { rewrite (redis_do_eq _ w r Hred). apply shrinking_redis_do, read_only_keys. }
    intros keys. apply shrinking_bind; [apply shrinking_dump_redis|].
    intros sd. apply shrinking_bind; [apply shrinking_redis_do, read_only_info|].
    intros a. apply shrinking_ret.
  - apply shrinks_bind; [apply shrinking_sweep|].
    intros ks. apply shrinking_bind; [|intros n; apply shrinking_ret].
    intros w1. apply shrinks_refl.
Qed.

(** X9: issue-claims, the health check and the debug dump never add or
    change a record: after any of them each backend holds a subset of
    what it held before, and the active backend is the same. *)
Theorem reading_endpoints_never_write (w : World) :
  (forall clock event creds,
     shrinks w (custom_claims_provider clock event creds w).2)
  /\ (forall config now info utcnow,
       shrinks w (health_check config now info utcnow w).2)
  /\ (forall now at_get info,
       shrinks w (debug_stored_data now at_get info w).2).
Proof.
  split; [intros; apply custom_claims_provider_shrinks|].
  split; [intros; apply shrinking_health_check | intros; apply shrinking_debug_stored_data].
Qed.

(** ** Statistics and health *)

Arguments sweep_expired : simpl never.

Lemma well_stamped_sweepable now (m : gmap string pydict) :
  well_stamped m -> exists ks, expired_keys_of now (map_to_list m) = Return ks.
Proof.
  intros Hm. apply expired_keys_of_stamped. intros [k d] Hin.
  apply elem_of_map_to_list in Hin. now apply (Hm k d).
Qed.

Lemma fresh_entries_lookup now (m : gmap string pydict) k d ts :
  m !! k = Some d ->
  Dict.lookup "_timestamp" d = Some (VNum ts) ->
  fresh_entries now m !! k = if Qgt_bool (now - ts) 300 then None else Some d.
Proof.
  intros Hk Hts. unfold fresh_entries.
  assert (Hst : stale now d = Qgt_bool (now - ts) 300).
  { unfold stale. now rewrite (is_expired_stamped _ _ _ Hts). }
  destruct (Qgt_bool (now - ts) 300) eqn:Hgt.
  - apply map_lookup_filter_None. right. intros d' Hd'. simpl. congruence.
  - apply map_lookup_filter_Some. split; [exact Hk | exact Hst].
Qed.

Lemma fresh_entries_absent now (m : gmap string pydict) k :
  m !! k = None -> fresh_entries now m !! k = None.
Proof. intros Hk. apply map_lookup_filter_None. now left. Qed.

Lemma get_storage_stats_fallback w now info ks :
  redis_client w = None ->
  expired_keys_of now (map_to_list (frontend_data_store w)) = Return ks ->
  get_storage_stats now info w
  = (Return (memory_stats (size (fresh_entries now (frontend_data_store w))) (length ks)),
     mkWorld None (fresh_entries now (frontend_data_store w))).
Proof.
  intros Hmem Hks. destruct (sweep_expired_spec w now ks Hks) as [Hsweep _].
  unfold get_storage_stats. run. rewrite Hmem. simpl. rewrite Hsweep. simpl.
  now rewrite Hmem.
Qed.

(** X10: in fallback mode the statistics sweep removes exactly the
    entries older than 300 seconds: an entry stamped ts is gone when
    now - ts > 300 and otherwise kept as it was, stored_items counts the
    entries left, cleaned_expired the entries removed, and the two add up
    to the number of entries before. *)
Theorem stats_sweep_removes_exactly_the_expired
  (w : World) (now : Q) (info : pydict) :
  redis_client w = None ->
  well_stamped (frontend_data_store w) ->
  exists stored_items cleaned_expired w',
    get_storage_stats now info w
    = (Return (VDict [ ("type", VStr "memory");
                       ("connected", VBool true);
                       ("stored_items", py_len stored_items);
                       ("cleaned_expired", py_len cleaned_expired) ]),
       w')
    /\ redis_client w' = None
    /\ stored_items = size (frontend_data_store w')
    /\ stored_items + cleaned_expired = size (frontend_data_store w)
    /\ (forall k d ts,
          frontend_data_store w !! k = Some d ->
          Dict.lookup "_timestamp" d = Some (VNum ts) ->
          frontend_data_store w' !! k
          = if Qgt_bool (now - ts) 300 then None else Some d)
    /\ (forall k,
          frontend_data_store w !! k = None -> frontend_data_store w' !! k = None).
Proof.
  intros Hmem Hm.
  destruct (well_stamped_sweepable now _ Hm) as [ks Hks].
  destruct (sweep_expired_spec w now ks Hks) as [_ Hsize].
  exists (size (fresh_entries now (frontend_data_store w))), (length ks).
  eexists. split; [now apply get_storage_stats_fallback|].
  simpl. repeat split; [exact Hsize | |].
  - intros k d ts. apply fresh_entries_lookup.
  - intros k. apply fresh_entries_absent.
Qed.

Lemma two_users_stamped : well_stamped (frontend_data_store Scenario.two_users).
Proof.
  intros k d Hk. simpl in Hk.
  destruct (decide (k = "u1")) as [->|H1].
  - rewrite lookup_insert_eq in Hk. inversion Hk. now exists 1000%Q.
  - rewrite lookup_insert_ne in Hk by congruence.
    destruct (decide (k = "u2")) as [->|H2].
    + rewrite lookup_singleton_eq in Hk. inversion Hk. now exists 1200%Q.
    + rewrite lookup_singleton_ne in Hk by congruence. discriminate.
Defined.

Lemma stats_sweep_witness :
  exists stored_items cleaned_expired w',
    get_storage_stats 1301 [] Scenario.two_users
    = (Return (VDict [ ("type", VStr "memory");
                       ("connected", VBool true);
                       ("stored_items", py_len stored_items);
                       ("cleaned_expired", py_len cleaned_expired) ]),
       w')
    /\ redis_client w' = None
    /\ stored_items = size (frontend_data_store w')
    /\ stored_items + cleaned_expired = size (frontend_data_store Scenario.two_users)
    /\ (forall k d ts,
          frontend_data_store Scenario.two_users !! k = Some d ->
          Dict.lookup "_timestamp" d = Some (VNum ts) ->
          frontend_data_store w' !! k
          = if Qgt_bool (1301 - ts) 300 then None else Some d)
    /\ (forall k,
          frontend_data_store Scenario.two_users !! k = None ->
          frontend_data_store w' !! k = None).
Proof.
  apply (stats_sweep_removes_exactly_the_expired Scenario.two_users 1301 []).
  - reflexivity.
  - exact two_users_stamped.
Defined.

Lemma handler_total {A} (body : M A) (handler : exn -> A) (w : World) :
  exists a w', try_except body (fun e => ret (handler e)) w = (Return a, w').
Proof.
  unfold try_except, ret. destruct (body w) as [[a|e] w']; eauto.
Qed.

Lemma get_storage_stats_total_aux w now info :
  exists storage w', get_storage_stats now info w = (Return storage, w').
Proof. unfold get_storage_stats. apply handler_total. Qed.

Lemma get_storage_stats_fault w r e fs now info :
  redis_client w = Some r -> Redis.faults r = Some e :: fs ->
  get_storage_stats now info w
  = (Return (unknown_stats e),
     mkWorld (Some (Redis.with_faults fs r)) (frontend_data_store w)).
Proof.
  intros Hred Hf. unfold get_storage_stats. run. rewrite Hred. simpl.
  unfold redis_info, Redis.command. now rewrite Hf.
Qed.

Lemma get_storage_stats_redis w r now info :
  redis_client w = Some r -> Redis.faults r = [] ->
  get_storage_stats now info w
  = (Return (VDict [ ("type", VStr "redis");
                     ("connected", VBool true);
                     ("used_memory", Dict.get info "used_memory_human" (VStr "N/A"));
                     ("connected_clients", Dict.get info "connected_clients" (VNum 0));
                     ("total_commands_processed",
                      Dict.get info "total_commands_processed" (VNum 0)) ]),
     w).
Proof.
  intros Hred Hok. unfold get_storage_stats. run. rewrite Hred. simpl.
  unfold redis_info. rewrite (command_healthy _ _ Hok). simpl.
  rewrite <- Hred. now rewrite world_eta.
Qed.

(** X11: GET /health never fails and always says status "healthy": it
    returns its body for every state.  When the Redis INFO command fails
    the storage section is type "unknown", connected false, with the
    error text; on a healthy Redis it is type "redis", connected true,
    with "N/A", 0 and 0 for the figures the INFO reply lacks. *)
Theorem health_check_never_fails
  (w : World) (config : Config) (now : Q) (info : pydict) (utcnow : string) :
  (exists storage flag w',
     health_check config now info utcnow w
     = (Return (VDict
                  [ ("status", VStr "healthy");
                    ("timestamp", VStr utcnow);
                    ("environment", VStr (ENVIRONMENT config));
                    ("storage", storage);
                    ("azure_config", VDict
                       [ ("tenant_id", VStr (AZURE_TENANT_ID config));
                         ("client_id_configured", VBool flag) ]) ]),
        w'))
  /\ (forall r e fs,
        redis_client w = Some r -> Redis.faults r = Some e :: fs ->
        exists flag w',
          health_check config now info utcnow w
          = (Return (health_body config utcnow
                       (VDict [ ("type", VStr "unknown");
                                ("connected", VBool false);
                                ("error", VStr (str_exn e)) ])
                       flag),
             w'))
  /\ (forall r,
        redis_client w = Some r -> Redis.faults r = [] ->
        exists flag,
          health_check config now info utcnow w
          = (Return (health_body config utcnow
                       (VDict [ ("type", VStr "redis");
                                ("connected", VBool true);
                                ("used_memory",
                                 default (VStr "N/A") (Dict.lookup "used_memory_human" info));
                                ("connected_clients",
                                 default (VNum 0) (Dict.lookup "connected_clients" info));
                                ("total_commands_processed",
                                 default (VNum 0)
                                   (Dict.lookup "total_commands_processed" info)) ])
                       flag),
             w)).
Proof.
  split; [|split].
  - unfold health_check, bind, ret.
    destruct (get_storage_stats_total_aux w now info) as (storage & w' & Hstats).
    rewrite Hstats. eauto.
  - intros r e fs Hred Hf. unfold health_check, bind, ret.
    rewrite (get_storage_stats_fault w r e fs now info Hred Hf).
    unfold health_body, unknown_stats. eauto.
  - intros r Hred Hok. unfold health_check, bind, ret.
    rewrite (get_storage_stats_redis w r now info Hred Hok).
    unfold health_body. eauto.
Qed.

Lemma health_check_never_fails_witness :
  exists flag w',
    health_check Scenario.config 1000 [] "2023-11-14T22:13:20" Sample.flaky_world
    = (Return (health_body Scenario.config "2023-11-14T22:13:20"
                 (VDict [ ("type", VStr "unknown");
                          ("connected", VBool false);
                          ("error", VStr "Timeout reading from socket") ])
                 flag),
       w').
Proof.
  exact (proj1 (proj2 (health_check_never_fails Sample.flaky_world Scenario.config
                         1000 [] "2023-11-14T22:13:20"))
           (Redis.Server ∅ [Some (RedisTimeoutError "Timeout reading from socket")]
                         (fun _ => "0"))
           (RedisTimeoutError "Timeout reading from socket") [] eq_refl eq_refl).
Defined.

(** X12: the health body reports client_id_configured true exactly when
    the environment sets AZURE_CLIENT_ID to something other than the empty
    string and the placeholder "your-client-id"; unset, empty or left at
    the placeholder it reports false. *)
Theorem client_id_configured_iff
  (w : World) (environ : gmap string string) (now : Q) (info : pydict)
  (utcnow : string) :
  exists storage flag w',
    health_check (load_config environ) now info utcnow w
    = (Return (health_body (load_config environ) utcnow storage flag), w')
    /\ (flag = true <->
        exists v, environ !! "AZURE_CLIENT_ID" = Some v
                  /\ v <> "" /\ v <> "your-client-id").
Proof.
  destruct (get_storage_stats_total_aux w now info) as (storage & w' & Hstats).
  exists storage. eexists. exists w'. split.
  - unfold health_check, bind, ret. rewrite Hstats. reflexivity.
  - unfold py_and. simpl. unfold getenv.
    destruct (environ !! "AZURE_CLIENT_ID") as [v|] eqn:Hv; simpl.
    + destruct (String.eqb v "") eqn:He; simpl.
      * apply String.eqb_eq in He. subst. split; [discriminate|].
        intros (v' & Hv' & Hne & _). inversion Hv'; subst. exfalso. now apply Hne.
      * apply String.eqb_neq in He.
        destruct (String.eqb v "your-client-id") eqn:Hp; simpl.
        -- apply String.eqb_eq in Hp. subst. split; [discriminate|].
           intros (v' & Hv' & _ & Hne). inversion Hv'; subst. exfalso. now apply Hne.
        -- apply String.eqb_neq in Hp. split; [|reflexivity].
           intros _. exists v. auto.
    + split; [discriminate|]. intros (v' & Hv' & _). discriminate.
Qed.

(** ** Start-up *)

Lemma health_check_empty_fallback config now info utcnow :
  exists flag,
    health_check config now info utcnow (mkWorld None ∅)
    = (Return (health_body config utcnow (memory_stats 0 0) flag), mkWorld None ∅).
Proof.
  unfold health_check, bind, ret.
  rewrite (get_storage_stats_fallback (mkWorld None ∅) now info []);
    [| reflexivity | simpl; now rewrite map_to_list_empty].
  simpl. unfold fresh_entries. rewrite map_filter_empty, map_size_empty.
  unfold health_body. eauto.
Qed.

(** X13: at start-up a reachable Redis is used; when the first PING fails
    with a connection or timeout error the service runs on the empty
    in-process store instead, and its health check then reports type
    "memory", connected true, with no stored and no cleaned items; any
    other exception of the PING is not caught and ends the start-up. *)
Theorem startup_selects_the_backend (r : Redis.server) :
  (Redis.faults r = [] -> startup r = Return (mkWorld (Some r) ∅))
  /\ (forall e fs,
        Redis.faults r = Some e :: fs -> connection_failure e ->
        startup r = Return (mkWorld None ∅)
        /\ forall config now info utcnow,
             exists flag,
               health_check config now info utcnow (mkWorld None ∅)
               = (Return (health_body config utcnow
                            (VDict [ ("type", VStr "memory");
                                     ("connected", VBool true);
                                     ("stored_items", py_len 0);
                                     ("cleaned_expired", py_len 0) ])
                            flag),
                  mkWorld None ∅))
  /\ (forall e fs,
        Redis.faults r = Some e :: fs -> ~ connection_failure e ->
        startup r = Raise e).
Proof.
  split; [|split].
  - intros Hok. unfold startup, redis_ping. rewrite (command_healthy _ _ Hok).
    reflexivity.
  - intros e fs Hf He. split.
    + unfold startup, redis_ping, Redis.command. rewrite Hf.
      destruct e; try contradiction; reflexivity.
    + intros. apply health_check_empty_fallback.
  - intros e fs Hf He. unfold startup, redis_ping, Redis.command. rewrite Hf.
    destruct e; try reflexivity; exfalso; apply He; exact I.
Qed.

Lemma startup_selects_the_backend_witness :
  startup Scenario.unreachable = Return (mkWorld None ∅)
  /\ forall config now info utcnow,
       exists flag,
         health_check config now info utcnow (mkWorld None ∅)
         = (Return (health_body config utcnow
                      (VDict [ ("type", VStr "memory");
                               ("connected", VBool true);
                               ("stored_items", py_len 0);
                               ("cleaned_expired", py_len 0) ])
                      flag),
            mkWorld None ∅).
Proof.
  exact (proj1 (proj2 (startup_selects_the_backend Scenario.unreachable))
           (RedisConnectionError "Connection refused") [] eq_refl I).
Defined.

(** ** The sweep and the lookups *)

Lemma Qgt_bool_spec (a b : Q) : Qgt_bool a b = true -> (b < a)%Q.
Proof.
  unfold Qgt_bool. intros H. destruct (Qle_bool a b) eqn:E; [discriminate|].
  destruct (Qlt_le_dec b a) as [Hlt|Hle]; [exact Hlt|].
  apply Qle_bool_iff in Hle. congruence.
Qed.

Lemma get_data_fallback_local w w' now k :
  redis_client w = None -> redis_client w' = None ->
  frontend_data_store w' !! k = frontend_data_store w !! k ->
  (get_data now (VStr k) w').1 = (get_data now (VStr k) w).1.
Proof.
  intros Hw Hw' Hk. unfold get_data. run. rewrite Hw, Hw'. simpl. rewrite Hk.
  destruct (frontend_data_store w !! k) as [d|] eqn:Hd; simpl; [|reflexivity].
  destruct (negb (length d =? 0)%nat); simpl; [|reflexivity].
  destruct (py_sub now (Dict.get d "_timestamp" (VNum 0))) as [age|e]; simpl;
    [|reflexivity].
  destruct (Qgt_bool age 300); simpl; [|reflexivity].
  rewrite Hk, Hd. reflexivity.
Qed.

Lemma claims_result_from_lookup w w' clock event creds :
  (get_data (at_get clock) (user_id_of (event_user event)) w').1
  = (get_data (at_get clock) (user_id_of (event_user event)) w).1 ->
  storage_type (redis_client w') = storage_type (redis_client w) ->
  (custom_claims_provider clock event creds w').1
  = (custom_claims_provider clock event creds w).1.
Proof.
  unfold event_user. intros Hget Hb.
  pose proof (shrinks_backend _ _
                (get_data_shrinks w (at_get clock)
                   (user_id_of (user (authenticationContext (data event)))))) as Hb1.
  pose proof (shrinks_backend _ _
                (get_data_shrinks w' (at_get clock)
                   (user_id_of (user (authenticationContext (data event)))))) as Hb1'.
  unfold custom_claims_provider. run.
  destruct (get_data (at_get clock)
              (user_id_of (user (authenticationContext (data event)))) w)
    as [[v|e] w1];
  destruct (get_data (at_get clock)
              (user_id_of (user (authenticationContext (data event)))) w')
    as [[v'|e'] w1']; simpl in *; try discriminate.
  - inversion Hget; subst v'. rewrite Hb1, Hb1', Hb.
    destruct (truthy v); simpl; [|reflexivity].
    destruct v as [| b | q | s | l | d]; simpl; try reflexivity.
    destruct (py_sub (at_age clock) (Dict.get d "timestamp" (VNum (at_age_default clock))))
      as [age|e]; simpl; [|reflexivity].
    destruct (delete_data_total w1 (at_delete clock)
                (user_id_of (user (authenticationContext (data event)))))
      as (b1 & w2 & ->).
    destruct (delete_data_total w1' (at_delete clock)
                (user_id_of (user (authenticationContext (data event)))))
      as (b1' & w2' & ->).
    reflexivity.
  - inversion Hget; subst. reflexivity.
Qed.

(** X14: in fallback mode the sweep done by the statistics (and so by a
    health check) is invisible to later lookups: for a clock that does
    not run backwards, [get_data] and issue-claims return after the
    sweep what they would have returned without it. *)
Theorem sweep_is_invisible_to_lookups
  (w : World) (now : Q) (info : pydict) (k : string)
  (clock : ClaimsClock) (event : TokenIssuanceEvent)
  (creds : HTTPAuthorizationCredentials) :
  redis_client w = None ->
  well_stamped (frontend_data_store w) ->
  (now <= at_get clock)%Q ->
  user_id_of (event_user event) = VStr k ->
  (get_data (at_get clock) (VStr k) (get_storage_stats now info w).2).1
  = (get_data (at_get clock) (VStr k) w).1
  /\ (custom_claims_provider clock event creds (get_storage_stats now info w).2).1
     = (custom_claims_provider clock event creds w).1.
Proof.
  intros Hmem Hm Hclock Huid.
  destruct (well_stamped_sweepable now _ Hm) as [ks Hks].
  rewrite (get_storage_stats_fallback w now info ks Hmem Hks). cbn [snd].
  set (w' := mkWorld None (fresh_entries now (frontend_data_store w))).
  assert (Hget : (get_data (at_get clock) (VStr k) w').1
                 = (get_data (at_get clock) (VStr k) w).1).
  { destruct (frontend_data_store w !! k) as [d|] eqn:Hk.
    - destruct (Hm k d Hk) as [ts Hts].
      pose proof (fresh_entries_lookup now _ k d ts Hk Hts) as Hfresh.
      destruct (Qgt_bool (now - ts) 300) eqn:Hgt.
      + apply Qgt_bool_spec in Hgt.
        rewrite (get_data_fallback_absent w' k eq_refl (at_get clock) Hfresh).
        rewrite (get_data_fallback_expired w k Hmem (at_get clock) d ts Hk Hts);
          [reflexivity | lra].
      + apply get_data_fallback_local; [exact Hmem | reflexivity |].
        simpl. now rewrite Hfresh, Hk.
    - apply get_data_fallback_local; [exact Hmem | reflexivity |].
      simpl. rewrite Hk. now apply fresh_entries_absent. }
  split; [exact Hget|].
  apply claims_result_from_lookup.
  - now rewrite Huid.
  - simpl. now rewrite Hmem.
Qed.

Lemma sweep_is_invisible_witness :
  (get_data 1302 (VStr "u2") (get_storage_stats 1301 [] Scenario.two_users).2).1
  = (get_data 1302 (VStr "u2") Scenario.two_users).1
  /\ (custom_claims_provider (mkClaimsClock 1302 "2023-11-14T22:18:22" 1302 1302 1302)
        Scenario.u2_event Sample.creds
        (get_storage_stats 1301 [] Scenario.two_users).2).1
     = (custom_claims_provider (mkClaimsClock 1302 "2023-11-14T22:18:22" 1302 1302 1302)
          Scenario.u2_event Sample.creds Scenario.two_users).1.
Proof.
  apply (sweep_is_invisible_to_lookups Scenario.two_users 1301 [] "u2"
           (mkClaimsClock 1302 "2023-11-14T22:18:22" 1302 1302 1302)
           Scenario.u2_event Sample.creds eq_refl two_users_stamped).
  - simpl. lra.
  - reflexivity.
Defined.

(** ** The debug dump of the fallback store *)

Lemma dump_lookup_notin (l : list (string * pydict)) k :
  k ∉ l.*1 -> Dict.lookup k ((fun kv => (kv.1, VDict kv.2)) <$> l) = None.
Proof.
  induction l as [|[k' d'] l IH]; intros Hk; [reflexivity|].
  cbn [fmap list_fmap Dict.lookup fst snd]. simpl in Hk.
  apply not_elem_of_cons in Hk as [Hne Hk].
  apply String.eqb_neq in Hne. rewrite Hne. now apply IH.
Qed.

Lemma dump_lookup_in (l : list (string * pydict)) k d :
  NoDup l.*1 -> (k, d) ∈ l ->
  Dict.lookup k ((fun kv => (kv.1, VDict kv.2)) <$> l) = Some (VDict d).
Proof.
  induction l as [|[k' d'] l IH]; intros Hnd Hin; [now apply elem_of_nil in Hin|].
  cbn [fmap list_fmap Dict.lookup fst snd]. simpl in Hnd.
  apply NoDup_cons in Hnd as [Hk' Hnd].
  apply elem_of_cons in Hin as [Heq|Hin].
  - inversion Heq; subst. now rewrite String.eqb_refl.
  - destruct (String.eqb k k') eqn:E.
    + apply String.eqb_eq in E. subst. exfalso. apply Hk'.
      apply list_elem_of_fmap. now exists (k', d).
    + now apply IH.
Qed.

Lemma store_dump_lookup (m : gmap string pydict) k :
  Dict.lookup k (store_dump m) = VDict <$> (m !! k).
Proof.
  unfold store_dump. destruct (m !! k) as [d|] eqn:Hk; simpl.
  - apply dump_lookup_in; [apply NoDup_fst_map_to_list|].
    now apply elem_of_map_to_list.
  - apply dump_lookup_notin. intros Hin.
    apply list_elem_of_fmap in Hin as ([k' d] & -> & Hin).
    apply elem_of_map_to_list in Hin. simpl in Hk. congruence.
Qed.

Lemma store_dump_length (m : gmap string pydict) : length (store_dump m) = size m.
Proof. unfold store_dump. now rewrite length_fmap, length_map_to_list. Qed.

Lemma debug_stored_data_fallback w now at_get info ks :
  redis_client w = None ->
  expired_keys_of now (map_to_list (frontend_data_store w)) = Return ks ->
  debug_stored_data now at_get info w
  = (Return (VDict [ ("storage_type", VStr "memory");
                     ("stored_data",
                      VDict (store_dump (fresh_entries now (frontend_data_store w))));
                     ("count", py_len (size (fresh_entries now (frontend_data_store w))));
                     ("cleaned_expired", py_len (length ks)) ]),
     mkWorld None (fresh_entries now (frontend_data_store w))).
Proof.
  intros Hmem Hks. destruct (sweep_expired_spec w now ks Hks) as [Hsweep _].
  unfold debug_stored_data. run. rewrite Hmem. simpl. rewrite Hsweep. simpl.
  now rewrite Hmem.
Qed.

(** X15: in fallback mode the debug dump first sweeps and then lists
    exactly the entries that are left: a user appears in stored_data with
    the stored dict if and only if the entry is still in the store, an
    entry is dropped exactly when it is older than 300 seconds, count is
    the number of entries listed, and count and cleaned_expired add up to
    the number of entries before.  Listing an entry does not consume
    it. *)
Theorem debug_dump_lists_the_unexpired
  (w : World) (now : Q) (at_get : nat -> Q) (info : pydict) :
  redis_client w = None ->
  well_stamped (frontend_data_store w) ->
  exists stored_data cleaned_expired w',
    debug_stored_data now at_get info w
    = (Return (VDict [ ("storage_type", VStr "memory");
                       ("stored_data", VDict stored_data);
                       ("count", py_len (length stored_data));
                       ("cleaned_expired", py_len cleaned_expired) ]),
       w')
    /\ redis_client w' = None
    /\ (forall k, Dict.lookup k stored_data = VDict <$> (frontend_data_store w' !! k))
    /\ (forall k d ts,
          frontend_data_store w !! k = Some d ->
          Dict.lookup "_timestamp" d = Some (VNum ts) ->
          frontend_data_store w' !! k
          = if Qgt_bool (now - ts) 300 then None else Some d)
    /\ length stored_data + cleaned_expired = size (frontend_data_store w).
Proof.
  intros Hmem Hm.
  destruct (well_stamped_sweepable now _ Hm) as [ks Hks].
  destruct (sweep_expired_spec w now ks Hks) as [_ Hsize].
  exists (store_dump (fresh_entries now (frontend_data_store w))), (length ks).
  eexists. split.
  { rewrite store_dump_length. now apply debug_stored_data_fallback. }
  simpl. split; [reflexivity|]. split; [intros k; apply store_dump_lookup|].
  split; [intros k d ts; apply fresh_entries_lookup|].
  now rewrite store_dump_length.
Qed.

Lemma debug_dump_witness :
  exists stored_data cleaned_expired w',
    debug_stored_data 1301 (fun _ => 1301%Q) [] Scenario.two_users
    = (Return (VDict [ ("storage_type", VStr "memory");
                       ("stored_data", VDict stored_data);
                       ("count", py_len (length stored_data));
                       ("cleaned_expired", py_len cleaned_expired) ]),
       w')
    /\ redis_client w' = None
    /\ (forall k, Dict.lookup k stored_data = VDict <$> (frontend_data_store w' !! k))
    /\ (forall k d ts,
          frontend_data_store Scenario.two_users !! k = Some d ->
          Dict.lookup "_timestamp" d = Some (VNum ts) ->
          frontend_data_store w' !! k
          = if Qgt_bool (1301 - ts) 300 then None else Some d)
    /\ length stored_data + cleaned_expired = size (frontend_data_store Scenario.two_users).
Proof.
  apply (debug_dump_lists_the_unexpired Scenario.two_users 1301 (fun _ => 1301%Q) []).
  - reflexivity.
  - exact two_users_stamped.
Defined.

(** ** The stamp invariant of the fallback store *)

Lemma well_stamped_shrinks w w' :
  shrinks w w' -> well_stamped (frontend_data_store w) ->
  well_stamped (frontend_data_store w').
Proof. intros [Hsub _]. now apply well_stamped_subseteq. Qed.

Lemma store_frontend_data_stamped w t_request t_store fd :
  well_stamped (frontend_data_store w) ->
  well_stamped (frontend_data_store (store_frontend_data t_request t_store fd w).2).
Proof.
  intros Hm. rewrite store_frontend_data_state.
  destruct (redis_client w) as [r|] eqn:Hred.
  - destruct (store_data_redis_state w r t_store (user_id fd)
                (data_to_store fd t_request) 300 Hred) as (r' & -> & _).
    exact Hm.
  - rewrite (store_data_fallback w _ _ _ _ Hred). simpl. intros k d Hk.
    destruct (decide (k = user_id fd)) as [->|Hne].
    + rewrite lookup_insert_eq in Hk. inversion Hk; subst.
      exists t_store. reflexivity.
    + rewrite lookup_insert_ne in Hk by congruence. now apply (Hm k d).
Qed.

(** X16: every entry of the fallback store carries a numeric
    '_timestamp': the store is empty at start-up, the store handler
    stamps what it inserts, and issue-claims, the health check and the
    debug dump only remove entries.  So the sweeps never meet an entry
    whose age cannot be computed. *)
Theorem fallback_entries_are_always_stamped :
  (forall r w0, startup r = Return w0 -> well_stamped (frontend_data_store w0))
  /\ forall w,
       well_stamped (frontend_data_store w) ->
       (forall t_request t_store fd,
          well_stamped (frontend_data_store (store_frontend_data t_request t_store fd w).2))
       /\ (forall clock event creds,
            well_stamped (frontend_data_store (custom_claims_provider clock event creds w).2))
       /\ (forall config now info utcnow,
            well_stamped (frontend_data_store (health_check config now info utcnow w).2))
       /\ (forall now at_get info,
            well_stamped (frontend_data_store (debug_stored_data now at_get info w).2)).
Proof.
  split.
  - intros r w0 Hstart k d Hk. unfold startup in Hstart.
    destruct (redis_ping r) as [[b|e] r']; [|destruct e]; inversion Hstart; subst;
      simpl in Hk; now rewrite lookup_empty in Hk.
  - intros w Hm. split; [intros; now apply store_frontend_data_stamped|].
    split; [|split]; intros;
      (eapply well_stamped_shrinks; [|exact Hm]).
    + apply custom_claims_provider_shrinks.
    + apply shrinking_health_check.
    + apply shrinking_debug_stored_data.
Qed.

Lemma fallback_entries_stamped_witness :
  well_stamped
    (frontend_data_store
       (store_frontend_data 1300 1300 Sample.u1_again Scenario.two_users).2)
  /\ well_stamped
       (frontend_data_store
          (health_check Scenario.config 1301 [] "2023-11-14T22:18:21"
             Scenario.two_users).2).
Proof.
  pose proof (proj2 fallback_entries_are_always_stamped Scenario.two_users
                two_users_stamped) as (Hstore & _ & Hhealth & _).
  split; [apply Hstore | apply Hhealth].
Defined.

(** ** The debug dump of Redis *)

Lemma lookup_setitem_eq k v (d : pydict) : Dict.lookup k (Dict.setitem k v d) = Some v.
Proof.
  induction d as [|[k' v'] d IH]; cbn [Dict.setitem Dict.lookup].
  - now rewrite String.eqb_refl.
  - destruct (String.eqb k k') eqn:E; cbn [Dict.lookup]; rewrite ?E.
    + now rewrite String.eqb_refl.
    + exact IH.
Qed.

Lemma lookup_setitem_ne k k' v (d : pydict) :
  k' <> k -> Dict.lookup k' (Dict.setitem k v d) = Dict.lookup k' d.
Proof.
  intros Hne. induction d as [|[k0 v0] d IH]; cbn [Dict.setitem Dict.lookup].
  - apply String.eqb_neq in Hne. now rewrite Hne.
  - destruct (String.eqb k k0) eqn:E; cbn [Dict.lookup].
    + apply String.eqb_eq in E. subst k0.
      apply String.eqb_neq in Hne. now rewrite Hne.
    + now rewrite IH.
Qed.

Section DumpRedis.
Context (w : World) (r : Redis.server) (at_get : nat -> Q).
Hypothesis Hred : redis_client w = Some r.
Hypothesis Hok : Redis.faults r = [].

(** one turn of the loop on a healthy connection *)
Lemma dump_redis_turn i key stored_data :
  exists stored_data',
    (data <- redis_do (Redis.get (at_get i) (VStr key)) ;;
     match data with
     | Some s =>
         if text_truthy s then
           try_except
             (v <- lift (json_loads s) ;;
              ret (Dict.setitem key v stored_data))
             (fun e =>
                match e with
                | JSONDecodeError _ =>
                    raw <- lift (raw_string s) ;;
                    ret (Dict.setitem key raw stored_data)
                | _ => raise e
                end)
         else ret stored_data
     | None => ret stored_data
     end) w
    = (Return stored_data', w)
    /\ (forall k, k <> key -> Dict.lookup k stored_data' = Dict.lookup k stored_data)
    /\ (forall e v,
          Redis.db r !! key = Some e -> Redis.live (at_get i) e = true ->
          shown (Redis.value e) = Some v ->
          Dict.lookup key stored_data' = Some v).
Proof.
  assert (Hw : mkWorld (Some r) (frontend_data_store w) = w)
    by (rewrite <- Hred; apply world_eta).
  unfold redis_do. run. rewrite Hred. simpl.
  unfold Redis.get. rewrite (command_healthy _ _ Hok). simpl.
  destruct (Redis.db r !! key) as [e|] eqn:Hk; simpl.
  - destruct (Redis.live (at_get i) e) eqn:Hlive; simpl.
    + destruct (Redis.value e) as [v|t] eqn:Hv; simpl.
      * eexists. rewrite Hw. split; [reflexivity|]. split.
        -- intros k Hne. now apply lookup_setitem_ne.
        -- intros e' v' He' _ Hshown. inversion He'; subst e'.
           rewrite Hv in Hshown. inversion Hshown; subst. apply lookup_setitem_eq.
      * destruct (String.eqb t "") eqn:Ht; simpl.
        -- eexists. rewrite Hw. split; [reflexivity|]. split; [reflexivity|].
           intros e' v' He' _ Hshown. inversion He'; subst e'.
           rewrite Hv in Hshown. simpl in Hshown. rewrite Ht in Hshown. discriminate.
        -- eexists. rewrite Hw. split; [reflexivity|]. split.
           ++ intros k Hne. now apply lookup_setitem_ne.
           ++ intros e' v' He' _ Hshown. inversion He'; subst e'.
              rewrite Hv in Hshown. simpl in Hshown. rewrite Ht in Hshown.
              inversion Hshown; subst. apply lookup_setitem_eq.
    + eexists. rewrite Hw. split; [reflexivity|]. split; [reflexivity|].
      intros e' v' He' Hlive'. inversion He'; subst e'. congruence.
  - eexists. rewrite Hw. split; [reflexivity|]. split; [reflexivity|].
    intros e' v' He'. discriminate.
Qed.

Lemma dump_redis_healthy keys : forall i stored_data,
  exists stored_data',
    dump_redis at_get i keys stored_data w = (Return stored_data', w)
    /\ (forall k, k ∉ keys -> Dict.lookup k stored_data' = Dict.lookup k stored_data)
    /\ (forall k e v,
          k ∈ keys -> Redis.db r !! k = Some e ->
          (forall j, Redis.live (at_get j) e = true) ->
          shown (Redis.value e) = Some v ->
          Dict.lookup k stored_data' = Some v).
Proof.
  induction keys as [|key keys IH]; intros i stored_data.
  - exists stored_data. split; [reflexivity|]. split; [reflexivity|].
    intros k e v Hin. now apply elem_of_nil in Hin.
  - destruct (dump_redis_turn i key stored_data) as (sd1 & Hturn & Hother & Hthis).
    destruct (IH (S i) sd1) as (sd' & Hrest & Hout & Hin).
    exists sd'. split; [|split].
    + cbn [dump_redis]. unfold bind at 1. unfold bind at 1 in Hturn.
      destruct (redis_do (Redis.get (at_get i) (VStr key)) w) as [[data|e] w1];
        [|discriminate].
      unfold bind at 1. rewrite Hturn. exact Hrest.
    + intros k Hk. apply not_elem_of_cons in Hk as [Hne Hk].
      rewrite (Hout k Hk). now apply Hother.
    + intros k e v Hk He Hlive Hshown.
      destruct (decide (k ∈ keys)) as [Hkeys|Hkeys].
      * now apply (Hin k e v).
      * apply elem_of_cons in Hk as [->|Hk]; [|contradiction].
        rewrite (Hout key Hkeys). now apply (Hthis e v).
Qed.

End DumpRedis.

Lemma live_keys_iff now (m : gmap string Redis.entry) k :
  k ∈ live_keys now (map_to_list m)
  <-> exists e, m !! k = Some e /\ Redis.live now e = true.
Proof.
  unfold live_keys. rewrite list_elem_of_fmap. split.
  - intros ([k' e] & -> & Hin). apply list_elem_of_filter in Hin as [Hl Hin].
    apply elem_of_map_to_list in Hin. exists e. split; [exact Hin|].
    simpl in Hl. now apply Is_true_true.
  - intros (e & Hk & Hl). exists (k, e). split; [reflexivity|].
    apply list_elem_of_filter. split; [simpl; now apply Is_true_true|].
    now apply elem_of_map_to_list.
Qed.

(** X17: on a healthy Redis the debug dump only reads: the state is left
    as it was, and the body has storage_type "redis", the INFO reply, and
    count equal to the number of entries listed.  A key whose entry is
    readable during the whole call is listed with the decoded value of
    its JSON text, or with the text itself when that is not JSON; a key
    that is absent or already expired when the keys are read is not
    listed. *)
Theorem debug_dump_of_redis
  (w : World) (r : Redis.server) (now : Q) (at_get : nat -> Q) (info : pydict) :
  redis_client w = Some r ->
  Redis.faults r = [] ->
  exists stored_data,
    debug_stored_data now at_get info w
    = (Return (VDict [ ("storage_type", VStr "redis");
                       ("stored_data", VDict stored_data);
                       ("count", py_len (length stored_data));
                       ("redis_info", VDict info) ]),
       w)
    /\ (forall k e v,
          Redis.db r !! k = Some e ->
          Redis.live now e = true -> (forall j, Redis.live (at_get j) e = true) ->
          shown (Redis.value e) = Some v ->
          Dict.lookup k stored_data = Some v)
    /\ (forall k,
          (forall e, Redis.db r !! k = Some e -> Redis.live now e = false) ->
          Dict.lookup k stored_data = None).
Proof.
  intros Hred Hok.
  assert (Hw : mkWorld (Some r) (frontend_data_store w) = w)
    by (rewrite <- Hred; apply world_eta).
  destruct (dump_redis_healthy w r at_get Hred Hok
              (live_keys now (map_to_list (Redis.db r))) 0 [])
    as (sd & Hdump & Hout & Hin).
  exists sd. split; [|split].
  - unfold debug_stored_data. unfold try_except, bind at 1, read_redis_client. simpl.
    rewrite Hred. unfold bind at 1, on_redis at 1.
    unfold redis_keys. rewrite (command_healthy _ _ Hok). simpl. rewrite Hw.
    unfold bind at 1. rewrite Hdump.
    unfold bind at 1, redis_do, bind at 1, read_redis_client. simpl. rewrite Hred.
    unfold on_redis, redis_info. rewrite (command_healthy _ _ Hok). simpl.
    now rewrite Hw.
  - intros k e v Hk Hlive Hall Hshown. apply (Hin k e v); auto.
    apply live_keys_iff. eauto.
  - intros k Hk. rewrite Hout; [reflexivity|].
    intros Hin'. apply live_keys_iff in Hin' as (e & He & Hl).
    rewrite (Hk e He) in Hl. discriminate.
Qed.

Lemma debug_dump_of_redis_witness :
  exists stored_data,
    debug_stored_data 1301 (fun _ => 1301%Q) [("redis_version", VStr "7.2.4")]
      Scenario.mixed_redis
    = (Return (VDict [ ("storage_type", VStr "redis");
                       ("stored_data", VDict stored_data);
                       ("count", py_len (length stored_data));
                       ("redis_info", VDict [("redis_version", VStr "7.2.4")]) ]),
       Scenario.mixed_redis)
    /\ Dict.lookup "u1" stored_data = Some (VDict [("business_unit", VStr "Finance")])
    /\ Dict.lookup "note" stored_data = Some (VStr "hello")
    /\ Dict.lookup "old" stored_data = None.
Proof.
  destruct (debug_dump_of_redis Scenario.mixed_redis
              (Redis.Server
                 {[ "u1" := Redis.Entry
                              (Redis.JsonText (VDict [("business_unit", VStr "Finance")])) 5000;
                    "note" := Redis.Entry (Redis.RawText "hello") 5000;
                    "old" := Redis.Entry (Redis.RawText "gone") 50 ]}
                 [] (fun _ => "0"))
              1301 (fun _ => 1301%Q) [("redis_version", VStr "7.2.4")]
              eq_refl eq_refl) as (sd & Hrun & Hin & Hout).
  exists sd. split; [exact Hrun|]. split; [|split].
  - apply (Hin "u1" (Redis.Entry
                       (Redis.JsonText (VDict [("business_unit", VStr "Finance")])) 5000));
      reflexivity.
  - apply (Hin "note" (Redis.Entry (Redis.RawText "hello") 5000)); reflexivity.
  - apply Hout. intros e He. vm_compute in He. inversion He. reflexivity.
Defined.

(** ** Round trip through the storage helpers *)

(** X18: on a healthy backend, what [store_data] puts under a key
    [get_data] hands back within the window, and after [delete_data] the
    key is empty again.  The two backends differ in what comes back: Redis
    returns the dict as it was given, the fallback store returns it with
    the ['_timestamp'] entry that [store_data] added. *)
Theorem store_get_delete_round_trip
  (w : World) (k : string) (d : pydict) (t_store t_get t_delete t_again : Q) :
  healthy w ->
  (t_get - t_store < 300)%Q ->
  exists w1 w2,
    store_data t_store k d 300 w = (Return true, w1)
    /\ get_data t_get (VStr k) w1
       = (Return (VDict (match redis_client w with
                         | Some _ => d
                         | None => Dict.setitem "_timestamp" (VNum t_store) d
                         end)),
          w1)
    /\ delete_data t_delete (VStr k) w1 = (Return true, w2)
    /\ get_data t_again (VStr k) w2 = (Return VNone, w2).
Proof.
  intros H Hage.
  set (w1 := put_record w k d t_store).
  assert (H1 : healthy w1) by now apply healthy_put.
  exists w1, (drop_record w1 k).
  split; [now apply store_data_healthy|]. split; [|split].
  - unfold healthy in H. unfold w1, put_record.
    destruct (redis_client w) as [r|] eqn:Hred.
    + apply (get_data_redis_live
               (mkWorld (Some (Redis.with_db
                                 (insert k (Redis.Entry (json_dumps (VDict d))
                                                        (t_store + inject_Z 300))) r))
                        (frontend_data_store w))
               _ k eq_refl H t_get (VDict d) (t_store + inject_Z 300)).
      * simpl. apply lookup_insert_eq.
      * change (inject_Z 300) with 300%Q. lra.
    + apply (get_data_fallback_fresh
               (mkWorld None (<[k := Dict.setitem "_timestamp" (VNum t_store) d]>
                                (frontend_data_store w)))
               k eq_refl t_get _ t_store).
      * simpl. apply lookup_insert_eq.
      * apply timestamp_of_stamped.
      * lra.
  - now apply delete_data_healthy.
  - apply get_data_healthy_absent; [now apply healthy_drop | apply nothing_staged_drop].
Qed.

Lemma store_get_delete_round_trip_witness :
  exists w1 w2,
    store_data 1000 "k" [("x", VStr "y")] 300 Sample.memory_world = (Return true, w1)
    /\ get_data 1299 (VStr "k") w1
       = (Return (VDict [("x", VStr "y"); ("_timestamp", VNum 1000)]), w1)
    /\ delete_data 1300 (VStr "k") w1 = (Return true, w2)
    /\ get_data 1300 (VStr "k") w2 = (Return VNone, w2).
Proof.
  apply (store_get_delete_round_trip Sample.memory_world "k" [("x", VStr "y")]
           1000 1299 1300 1300); [exact I | lra].
Defined.

(** ** Records that another program wrote to Redis *)

Section Foreign.
Context (w : World) (r : Redis.server) (clock : ClaimsClock)
        (event : TokenIssuanceEvent) (creds : HTTPAuthorizationCredentials)
        (k : string) (v : pyval) (expiry : Q).
Hypothesis Hred : redis_client w = Some r.
Hypothesis Hok : Redis.faults r = [].
Hypothesis Hk : Redis.db r !! k = Some (Redis.Entry (json_dumps v) expiry).
Hypothesis Hlive : (at_get clock < expiry)%Q.
Hypothesis Huid : user_id_of (event_user event) = VStr k.

Lemma foreign_lookup :
  get_data (at_get clock) (user_id_of (user (authenticationContext (data event)))) w
  = (Return v, w).
Proof.
  unfold event_user in Huid. rewrite Huid.
  exact (get_data_redis_live w r k Hred Hok (at_get clock) v expiry Hk Hlive).
Qed.

Lemma foreign_dict_without_timestamp d :
  v = VDict d -> d <> [] -> Dict.lookup "timestamp" d = None ->
  custom_claims_provider clock event creds w
  = (Return (provide_claims
               (frontend_claims "redis" (event_correlationId event) (utcnow_iso clock)
                  (Dict.get d "business_unit" (VStr "Unknown"))
                  (Dict.get d "device_info" (VStr "Unknown"))
                  (Dict.get d "custom_data" (VStr ""))
                  (at_age clock - at_age_default clock))),
     drop_record w k).
Proof.
  intros Hv Hne Hts. pose proof foreign_lookup as Hget. rewrite Hv in Hget.
  unfold custom_claims_provider. run. rewrite Hget.
  destruct d as [|kv d]; [contradiction|]. cbn [truthy length Nat.eqb negb].
  unfold py_get.
  replace (Dict.get (kv :: d) "timestamp" (VNum (at_age_default clock)))
    with (VNum (at_age_default clock)) by (unfold Dict.get; now rewrite Hts).
  simpl. unfold event_user in Huid. rewrite Huid.
  rewrite (delete_data_healthy w (at_delete clock) k)
    by (unfold healthy; now rewrite Hred).
  simpl. now rewrite Hred.
Qed.

Lemma foreign_dict_with_text_timestamp d s :
  v = VDict d -> Dict.lookup "timestamp" d = Some (VStr s) ->
  exists detail,
    custom_claims_provider clock event creds w = (Raise (HTTPException 500 detail), w).
Proof.
  intros Hv Hts. pose proof foreign_lookup as Hget. rewrite Hv in Hget.
  unfold custom_claims_provider. run. rewrite Hget.
  rewrite (lookup_truthy _ _ _ Hts). unfold py_get.
  replace (Dict.get d "timestamp" (VNum (at_age_default clock))) with (VStr s)
    by (unfold Dict.get; now rewrite Hts).
  simpl. eauto.
Qed.

Lemma foreign_list l :
  v = VList l -> l <> [] ->
  exists detail,
    custom_claims_provider clock event creds w = (Raise (HTTPException 500 detail), w).
Proof.
  intros Hv Hne. pose proof foreign_lookup as Hget. rewrite Hv in Hget.
  unfold custom_claims_provider. run. rewrite Hget.
  destruct l as [|x l]; [contradiction|]. simpl. eauto.
Qed.

End Foreign.

(** X19: a readable Redis entry that the store handler did not write is
    served as far as it goes.  A non-empty JSON object without a
    "timestamp" gives staged claims with "Unknown", "Unknown" and "" for
    the fields it lacks and a dataAge that is the difference of the two
    clock readings of line 240, and the entry is deleted; an object whose
    "timestamp" is a string, or a non-empty JSON array, makes the call
    fail with HTTPException 500 and the entry stays. *)
Theorem foreign_record_in_redis
  (w : World) (r : Redis.server) (clock : ClaimsClock)
  (event : TokenIssuanceEvent) (creds : HTTPAuthorizationCredentials)
  (k : string) (v : pyval) (expiry : Q) :
  redis_client w = Some r ->
  Redis.faults r = [] ->
  Redis.db r !! k = Some (Redis.Entry (json_dumps v) expiry) ->
  (at_get clock < expiry)%Q ->
  user_id_of (event_user event) = VStr k ->
  (forall d,
     v = VDict d -> d <> [] -> Dict.lookup "timestamp" d = None ->
     custom_claims_provider clock event creds w
     = (Return (provide_claims
                  (frontend_claims "redis" (event_correlationId event) (utcnow_iso clock)
                     (default (VStr "Unknown") (Dict.lookup "business_unit" d))
                     (default (VStr "Unknown") (Dict.lookup "device_info" d))
                     (default (VStr "") (Dict.lookup "custom_data" d))
                     (at_age clock - at_age_default clock))),
        drop_record w k))
  /\ (forall d s,
        v = VDict d -> Dict.lookup "timestamp" d = Some (VStr s) ->
        exists detail,
          custom_claims_provider clock event creds w
          = (Raise (HTTPException 500 detail), w))
  /\ (forall l,
        v = VList l -> l <> [] ->
        exists detail,
          custom_claims_provider clock event creds w
          = (Raise (HTTPException 500 detail), w)).
Proof.
  intros Hred Hok Hk Hlive Huid. split; [|split].
  - intros d. apply (foreign_dict_without_timestamp w r clock event creds k v expiry); auto.
  - intros d s. apply (foreign_dict_with_text_timestamp w r clock event creds k v expiry); auto.
  - intros l. apply (foreign_list w r clock event creds k v expiry); auto.
Qed.

Lemma foreign_record_witness :
  custom_claims_provider Sample.soon Sample.u1_event Sample.creds
    (Scenario.foreign_redis (VDict [("device_info", VStr "Kiosk")]))
  = (Return (provide_claims
               (frontend_claims "redis" "corr-1" (utcnow_iso Sample.soon)
                  (VStr "Unknown") (VStr "Kiosk") (VStr "")
                  (at_age Sample.soon - at_age_default Sample.soon))),
     drop_record (Scenario.foreign_redis (VDict [("device_info", VStr "Kiosk")])) "u1")
  /\ exists detail,
       custom_claims_provider Sample.soon Sample.u1_event Sample.creds
         (Scenario.foreign_redis (VList [VStr "x"]))
       = (Raise (HTTPException 500 detail), Scenario.foreign_redis (VList [VStr "x"])).
Proof.
  split.
  - refine (proj1 (foreign_record_in_redis
                     (Scenario.foreign_redis (VDict [("device_info", VStr "Kiosk")])) _
                     Sample.soon Sample.u1_event Sample.creds "u1"
                     (VDict [("device_info", VStr "Kiosk")]) 5000
                     eq_refl eq_refl _ _ eq_refl)
              [("device_info", VStr "Kiosk")] eq_refl _ eq_refl).
    + apply lookup_singleton_eq.
    + simpl. lra.
    + discriminate.
  - refine (proj2 (proj2 (foreign_record_in_redis
                     (Scenario.foreign_redis (VList [VStr "x"])) _
                     Sample.soon Sample.u1_event Sample.creds "u1"
                     (VList [VStr "x"]) 5000
                     eq_refl eq_refl _ _ eq_refl))
              [VStr "x"] eq_refl _).
    + apply lookup_singleton_eq.
    + simpl. lra.
    + discriminate.
Defined.
